(** * LegalGuard ID front end: annotation overlay, bilingual editor and
      workflow handlers of [frontend/app.js], embedded in Rocq.

    JavaScript strings are sequences of UTF-16 code units; they are modelled
    as lists of code units ([N]).  A value that may be [null] or [undefined]
    is an [option]. *)

From Stdlib Require Import Bool Ascii String.
From Stdlib Require Import List NArith ZArith Lia.
Import ListNotations.

(* ================================================================== *)
(** ** JavaScript strings *)
(* ================================================================== *)

Module JS.

Definition code_unit := N.
Definition jsstring := list code_unit.

(** A string literal of the source (ASCII only). *)
Definition lit (s : string) : jsstring :=
  map N_of_ascii (list_ascii_of_string s).
Arguments lit s%_string.

(** Characters that cannot be written inside a Rocq literal. *)
Definition dq : jsstring := [34%N].        (* the double quote *)
Definition nl : code_unit := 10%N.         (* \n *)
Definition tab : code_unit := 9%N.         (* \t *)

Definition eqb_str (a b : jsstring) : bool :=
  if list_eq_dec N.eq_dec a b then true else false.

(** Truthiness of a possibly missing string: [null], [undefined] and the
    empty string are falsy. *)
Definition truthy (v : option jsstring) : bool :=
  match v with
  | Some (_ :: _) => true
  | _ => false
  end.

(** [a || b] on possibly missing strings. *)
Definition or_else (a b : option jsstring) : option jsstring :=
  if truthy a then a else b.

(** [a || 'literal'] *)
Definition or_lit (a : option jsstring) (d : jsstring) : jsstring :=
  match a with
  | Some (c :: s) => c :: s
  | _ => d
  end.

(** [s.startsWith(p)] *)
Fixpoint startsWith (s p : jsstring) {struct p} : bool :=
  match p, s with
  | [], _ => true
  | _ :: _, [] => false
  | a :: p', b :: s' => (a =? b)%N && startsWith s' p'
  end.

(** [s.indexOf(p)]: the first position at which [p] occurs. *)
Fixpoint indexOf (s p : jsstring) : option nat :=
  match s with
  | [] => if startsWith [] p then Some 0 else None
  | _ :: s' =>
      if startsWith s p then Some 0 else option_map S (indexOf s' p)
  end.

(** [s.replace(/c/g, by)] for a one-character pattern [c] and a
    replacement without [$]. *)
Definition replace_all_char (c : code_unit) (by_ : jsstring) (s : jsstring)
  : jsstring :=
  flat_map (fun x => if (x =? c)%N then by_ else [x]) s.

(** GetSubstitution of ECMA-262 for a string pattern (no captures):
    [$$] is a dollar, [$&] the match, [$`] the text before it, [$'] the
    text after it; any other [$] stands for itself. *)
Fixpoint GetSubstitution (matched before after template : jsstring)
  : jsstring :=
  match template with
  | [] => []
  | c :: r =>
      if (c =? 36)%N then
        match r with
        | d :: r' =>
            if (d =? 36)%N then 36%N :: GetSubstitution matched before after r'
            else if (d =? 38)%N then matched ++ GetSubstitution matched before after r'
            else if (d =? 96)%N then before ++ GetSubstitution matched before after r'
            else if (d =? 39)%N then after ++ GetSubstitution matched before after r'
            else c :: GetSubstitution matched before after r
        | [] => [c]
        end
      else c :: GetSubstitution matched before after r
  end.

(** [s.replace(pattern, template)] with a string pattern: only the first
    occurrence is replaced. *)
Definition replace (s pattern template : jsstring) : jsstring :=
  match indexOf s pattern with
  | None => s
  | Some i =>
      let before := firstn i s in
      let after := skipn (i + length pattern) s in
      before ++ GetSubstitution pattern before after template ++ after
  end.

(** WhiteSpace and LineTerminator code units: what [trim] strips and what
    [\s] matches. *)
Definition is_space (c : code_unit) : bool :=
  ((9 <=? c) && (c <=? 13) || (c =? 32) || (c =? 160) || (c =? 5760)
   || (8192 <=? c) && (c <=? 8202) || (c =? 8232) || (c =? 8233)
   || (c =? 8239) || (c =? 8287) || (c =? 12288) || (c =? 65279))%N.

(** [\d] *)
Definition is_digit (c : code_unit) : bool := ((48 <=? c) && (c <=? 57))%N.

(** [[A-Z]] *)
Definition is_upper (c : code_unit) : bool := ((65 <=? c) && (c <=? 90))%N.

Fixpoint dropWhile (f : code_unit -> bool) (s : jsstring) : jsstring :=
  match s with
  | [] => []
  | c :: r => if f c then dropWhile f r else s
  end.

Definition trimStart (s : jsstring) : jsstring := dropWhile is_space s.
Definition trimEnd (s : jsstring) : jsstring := rev (dropWhile is_space (rev s)).
Definition trim (s : jsstring) : jsstring := trimEnd (trimStart s).

End JS.
Import JS.

(* ================================================================== *)
(** ** Text helpers of the overlay engine *)
(* ================================================================== *)

(** [escapeHtml]: the text is stored as the content of a detached [div] and
    read back through [innerHTML].  The serialisation of a text node
    (HTML standard, "escaping a string", not in attribute mode) replaces
    [&], U+00A0, [<] and [>]. *)
Definition serialize_text_char (c : code_unit) : jsstring :=
  if (c =? 38)%N then lit "&amp;"
  else if (c =? 160)%N then lit "&nbsp;"
  else if (c =? 60)%N then lit "&lt;"
  else if (c =? 62)%N then lit "&gt;"
  else [c].

Definition escapeHtml (text : option jsstring) : jsstring :=
  if negb (truthy text) then []
  else flat_map serialize_text_char (or_lit text []).

Definition formatDocumentText (text : option jsstring) : jsstring :=
  match text with
  | Some (c :: s) =>
      replace_all_char tab (lit "&nbsp;&nbsp;&nbsp;&nbsp;")
        (replace_all_char nl (lit "<br>")
          (replace_all_char 62%N (lit "&gt;")
            (replace_all_char 60%N (lit "&lt;") (c :: s))))
  | _ => []
  end.

Definition truncateText (text : option jsstring) (maxLength : nat) : jsstring :=
  match text with
  | Some (c :: s) =>
      let t := c :: s in
      if length t <=? maxLength then t
      else firstn maxLength t ++ lit "..."
  | _ => []
  end.

(** The four global replacements of [formatDocumentText] amount to one
    pass over the characters. *)
Definition format_char (c : code_unit) : jsstring :=
  if (c =? 60)%N then lit "&lt;"
  else if (c =? 62)%N then lit "&gt;"
  else if (c =? nl)%N then lit "<br>"
  else if (c =? tab)%N then lit "&nbsp;&nbsp;&nbsp;&nbsp;"
  else [c].

(** No [<] of a string is followed by [m]. *)
Fixpoint no_mark_tag (s : jsstring) : bool :=
  match s with
  | [] => true
  | c :: r =>
      negb ((c =? 60)%N && match r with d :: _ => (d =? 109)%N | [] => false end)
      && no_mark_tag r
  end.

(** The two lookup tables, [typeMap[type] || fallback].  Only the own
    properties of [typeMap] are modelled: for a [type] that is the name of
    a property inherited from [Object.prototype] (see [inherited_name]) the
    code finds that property, a function or an object, and not the
    fallback. *)
Definition lookup (m : list (jsstring * jsstring)) (k : option jsstring)
  : option jsstring :=
  match k with
  | None => None
  | Some key =>
      match find (fun e => eqb_str (fst e) key) m with
      | Some e => Some (snd e)
      | None => None
      end
  end.

Definition getIssueHighlightClass (type : option jsstring) : jsstring :=
  let typeMap :=
    [ (lit "terminology", lit "highlight-terminology");
      (lit "deletion", lit "highlight-deletion");
      (lit "formatting", lit "highlight-formatting");
      (lit "party_label", lit "highlight-party");
      (lit "arbitration", lit "highlight-arbitration");
      (lit "signature", lit "highlight-signature") ] in
  or_lit (lookup typeMap type) (lit "highlight-general").

Definition formatIssueType (type : option jsstring) : jsstring :=
  let typeMap :=
    [ (lit "terminology", lit "Terminology");
      (lit "deletion", lit "Deletion Required");
      (lit "formatting", lit "Formatting");
      (lit "party_label", lit "Party Label");
      (lit "arbitration", lit "Arbitration Clause");
      (lit "signature", lit "Signature") ] in
  or_lit (lookup typeMap type) (lit "General").

(* ================================================================== *)
(** ** Data model: the JSON values received from the backend *)
(* ================================================================== *)

Record CleanupIssue := {
  issue_type : option jsstring;
  location : option jsstring;
  original_text : option jsstring;
  rule : option jsstring
}.

Record OpenItem := { placeholder : jsstring }.

Record CleanupResult := {
  cr_document_id : jsstring;
  original_content : option jsstring;
  cleaned_indonesian : option jsstring;
  cleaned_english : option jsstring;
  edited_indonesian : option jsstring;
  edited_english : option jsstring;
  issues : option (list CleanupIssue);
  change_summary : option (list jsstring);
  open_items : option (list OpenItem)
}.

Record ModuleContent := {
  document_type : option jsstring;
  summary : option jsstring;
  key_parties : option (list jsstring)
}.

Record TrainingModule := {
  tm_document_id : jsstring;
  module_content : ModuleContent
}.

Record ComplianceReport := {
  rp_document_id : jsstring;
  compliance_score : option Z
}.

Record UploadData := { id : jsstring }.

(* ================================================================== *)
(** ** Annotation overlay: [renderCleanupResults] *)
(* ================================================================== *)

(** The replacement template built for one issue:
    [<mark class="${highlightClass}" title="${escapeHtml(issue.rule)}">${escapedText}</mark>] *)
Definition mark_template (issue : CleanupIssue) : jsstring :=
  let escapedText := escapeHtml (original_text issue) in
  let highlightClass := getIssueHighlightClass (issue_type issue) in
  lit "<mark class=" ++ dq ++ highlightClass ++ dq
    ++ lit " title=" ++ dq ++ escapeHtml (rule issue) ++ dq ++ lit ">"
    ++ escapedText ++ lit "</mark>".

(** One turn of the [issues.forEach] loop on the accumulated [originalText]. *)
Definition highlight_issue (originalText : jsstring) (issue : CleanupIssue)
  : jsstring :=
  if truthy (original_text issue) then
    replace originalText (or_lit (original_text issue) []) (mark_template issue)
  else originalText.

(** The whole loop: the issues are visited in list order. *)
Definition highlight_issues (issues : list CleanupIssue) (originalText : jsstring)
  : jsstring :=
  fold_left highlight_issue issues originalText.

Definition pre_document_text (inner : jsstring) : jsstring :=
  lit "<pre class=" ++ dq ++ lit "document-text" ++ dq ++ lit ">"
    ++ inner ++ lit "</pre>".

(** A card of the issue list (its four [div]s). *)
Record IssueCard := {
  card_class : jsstring;
  card_type_badge : jsstring;
  card_location : jsstring;
  card_original_text : jsstring;
  card_rule : jsstring
}.

Definition issue_card (issue : CleanupIssue) : IssueCard :=
  {| card_class :=
       lit "cleanup-issue-card issue-type-"
         ++ or_lit (issue_type issue) (lit "general");
     card_type_badge := formatIssueType (issue_type issue);
     card_location :=
       escapeHtml (Some (or_lit (location issue) (lit "Unknown location")));
     card_original_text :=
       dq ++ escapeHtml (Some (truncateText (original_text issue) 100)) ++ dq;
     card_rule :=
       escapeHtml (Some (or_lit (rule issue) (lit "General cleanup rule"))) |}.

(** What [renderCleanupResults] writes into the page. *)
Record CleanupView := {
  original_content_html : jsstring;
  cleaned_indonesian_html : jsstring;
  cleaned_english_html : jsstring;
  issues_list : list IssueCard;
  open_items_alert_hidden : bool
}.

Definition renderCleanupResults (result : CleanupResult) : CleanupView :=
  let issues := match issues result with Some l => l | None => [] end in
  let openItems := match open_items result with Some l => l | None => [] end in
  let originalText := or_lit (original_content result) [] in
  let originalText := highlight_issues issues originalText in
  {| original_content_html :=
       pre_document_text (formatDocumentText (Some originalText));
     cleaned_indonesian_html :=
       pre_document_text (formatDocumentText
         (Some (or_lit (cleaned_indonesian result)
                       (lit "No Indonesian text available."))));
     cleaned_english_html :=
       pre_document_text (formatDocumentText
         (Some (or_lit (cleaned_english result)
                       (lit "No English text available."))));
     issues_list := map issue_card issues;
     open_items_alert_hidden := negb (0 <? length openItems) |}.

(* ================================================================== *)
(** ** Compliance report: [renderComplianceReport] *)
(* ================================================================== *)

Record ScoreView := {
  score_text : Z;
  stroke : jsstring;
  status_label : jsstring;
  status_color : jsstring
}.

Definition renderComplianceReport (report : ComplianceReport) : ScoreView :=
  let score :=
    match compliance_score report with
    | Some z => z           (* [0 || 0] is 0 as well *)
    | None => 0%Z
    end in
  if (score >=? 90)%Z then
    {| score_text := score; stroke := lit "var(--success)";
       status_label := lit "COMPLIANT"; status_color := lit "var(--success)" |}
  else if (score >=? 70)%Z then
    {| score_text := score; stroke := lit "var(--primary)";
       status_label := lit "MOSTLY COMPLIANT"; status_color := lit "var(--primary)" |}
  else if (score >=? 50)%Z then
    {| score_text := score; stroke := lit "var(--warning)";
       status_label := lit "NEEDS REVIEW"; status_color := lit "var(--warning)" |}
  else
    {| score_text := score; stroke := lit "var(--danger)";
       status_label := lit "NON-COMPLIANT"; status_color := lit "var(--danger)" |}.

(* ================================================================== *)
(** ** Plain text to rich content: [convertTextToHtml] *)
(* ================================================================== *)

(** [text.split(/\n\n+/)]: the separators are the maximal runs of two or
    more line feeds.  [acc] is the current chunk, reversed; [in_sep] tells
    that the scan is inside a separator. *)
Fixpoint split_blank_lines (s acc : jsstring) (in_sep : bool) : list jsstring :=
  match s with
  | [] => [rev acc]
  | c :: r =>
      if in_sep && (c =? nl)%N then split_blank_lines r acc true
      else
        match r with
        | d :: r' =>
            if (c =? nl)%N && (d =? nl)%N
            then rev acc :: split_blank_lines r' [] true
            else split_blank_lines r (c :: acc) false
        | [] => [rev (c :: acc)]
        end
  end.

Definition split_paragraphs (text : jsstring) : list jsstring :=
  split_blank_lines text [] false.

(** [/^[A-Z][A-Z\s]+$/.test(para)] *)
Definition all_caps_line (para : jsstring) : bool :=
  match para with
  | c :: (_ :: _) as r =>
      is_upper c && forallb (fun x => is_upper x || is_space x) r
  | _ => false
  end.

(** Case-insensitive match of an ASCII keyword at the start of [s]; the
    rest of [s] when it matches. *)
Definition to_upper (c : code_unit) : code_unit :=
  if ((97 <=? c) && (c <=? 122))%N then (c - 32)%N else c.

Fixpoint strip_keyword (kw s : jsstring) : option jsstring :=
  match kw, s with
  | [], _ => Some s
  | _ :: _, [] => None
  | k :: kw', c :: s' =>
      if (to_upper c =? k)%N then strip_keyword kw' s' else None
  end.

(** [/^(PASAL|ARTICLE|BAB|CHAPTER)\s*\d+/i.test(para)] *)
Definition chapter_marker (para : jsstring) : bool :=
  existsb
    (fun kw =>
       match strip_keyword kw para with
       | Some rest =>
           match dropWhile is_space rest with
           | d :: _ => is_digit d
           | [] => false
           end
       | None => false
       end)
    [lit "PASAL"; lit "ARTICLE"; lit "BAB"; lit "CHAPTER"].

(** [/^\d+\.\s/.test(para)] *)
Definition numbered_paragraph (para : jsstring) : bool :=
  match para with
  | c :: _ =>
      is_digit c &&
      match dropWhile is_digit para with
      | dot :: sp :: _ => (dot =? 46)%N && is_space sp
      | _ => false
      end
  | [] => false
  end.

(** The block appended to [html] for one trimmed, non-empty chunk. *)
Definition paragraph_block (para : jsstring) : jsstring :=
  if all_caps_line para || chapter_marker para then
    lit "<h2>" ++ escapeHtml (Some para) ++ lit "</h2>" ++ [nl]
  else if numbered_paragraph para then
    lit "<p>" ++ escapeHtml (Some para) ++ lit "</p>" ++ [nl]
  else
    lit "<p>" ++ escapeHtml (Some (replace_all_char nl (lit "<br>") para))
      ++ lit "</p>" ++ [nl].

(** One turn of [paragraphs.forEach]. *)
Definition append_paragraph (html para : jsstring) : jsstring :=
  let para := trim para in
  match para with
  | [] => html
  | _ :: _ => html ++ paragraph_block para
  end.

Definition convertTextToHtml (text : option jsstring) : jsstring :=
  match text with
  | Some (c :: s) =>
      let text := c :: s in
      if startsWith (trim text) (lit "<") then text
      else
        let paragraphs := split_paragraphs text in
        let html := fold_left append_paragraph paragraphs [] in
        or_lit (Some html) (lit "<p></p>")
  | _ => lit "<p></p>"
  end.

(** The test of [convertTextToHtml] for content that is markup already:
    [text.trim().startsWith('<')]. *)
Definition is_markup (text : jsstring) : bool :=
  startsWith (trim text) (lit "<").

(** The trimmed chunks that are not empty: those [paragraphs.forEach]
    turns into blocks. *)
Definition is_empty (s : jsstring) : bool :=
  match s with [] => true | _ :: _ => false end.

Definition chunks (text : jsstring) : list jsstring :=
  filter (fun para => negb (is_empty para)) (map trim (split_paragraphs text)).

(* ================================================================== *)
(** ** Session state and the page *)
(* ================================================================== *)

(** The Quill instance: the serialised content of its root element. *)
Record Quill := { root_innerHTML : jsstring }.

(** The module-level variables of the script, and the parts of the page the
    handlers write. *)
Record World := {
  documentId : option jsstring;
  trainingModule : option TrainingModule;
  complianceReport : option ComplianceReport;
  cleanupResult : option CleanupResult;
  editorInstance : option Quill;
  currentEditorLanguage : jsstring;
  (* the page *)
  section : jsstring;                    (* the section made visible last *)
  process_title : jsstring;
  process_step : jsstring;
  main_progress : nat;                   (* width of the bar, in percent *)
  editor_status : jsstring * jsstring;   (* text and class name *)
  alerts : list jsstring;                (* messages shown by alert() *)
  score_view : option ScoreView;
  cleanup_view : option CleanupView;
  module_view : option ModuleContent
}.

Definition set_documentId v w :=
  {| documentId := v; trainingModule := trainingModule w;
     complianceReport := complianceReport w; cleanupResult := cleanupResult w;
     editorInstance := editorInstance w;
     currentEditorLanguage := currentEditorLanguage w;
     section := section w; process_title := process_title w;
     process_step := process_step w; main_progress := main_progress w;
     editor_status := editor_status w; alerts := alerts w;
     score_view := score_view w; cleanup_view := cleanup_view w;
     module_view := module_view w |}.

Definition set_trainingModule v w :=
  {| documentId := documentId w; trainingModule := v;
     complianceReport := complianceReport w; cleanupResult := cleanupResult w;
     editorInstance := editorInstance w;
     currentEditorLanguage := currentEditorLanguage w;
     section := section w; process_title := process_title w;
     process_step := process_step w; main_progress := main_progress w;
     editor_status := editor_status w; alerts := alerts w;
     score_view := score_view w; cleanup_view := cleanup_view w;
     module_view := module_view w |}.

Definition set_complianceReport v w :=
  {| documentId := documentId w; trainingModule := trainingModule w;
     complianceReport := v; cleanupResult := cleanupResult w;
     editorInstance := editorInstance w;
     currentEditorLanguage := currentEditorLanguage w;
     section := section w; process_title := process_title w;
     process_step := process_step w; main_progress := main_progress w;
     editor_status := editor_status w; alerts := alerts w;
     score_view := score_view w; cleanup_view := cleanup_view w;
     module_view := module_view w |}.

Definition set_cleanupResult v w :=
  {| documentId := documentId w; trainingModule := trainingModule w;
     complianceReport := complianceReport w; cleanupResult := v;
     editorInstance := editorInstance w;
     currentEditorLanguage := currentEditorLanguage w;
     section := section w; process_title := process_title w;
     process_step := process_step w; main_progress := main_progress w;
     editor_status := editor_status w; alerts := alerts w;
     score_view := score_view w; cleanup_view := cleanup_view w;
     module_view := module_view w |}.

Definition set_editorInstance v w :=
  {| documentId := documentId w; trainingModule := trainingModule w;
     complianceReport := complianceReport w; cleanupResult := cleanupResult w;
     editorInstance := v;
     currentEditorLanguage := currentEditorLanguage w;
     section := section w; process_title := process_title w;
     process_step := process_step w; main_progress := main_progress w;
     editor_status := editor_status w; alerts := alerts w;
     score_view := score_view w; cleanup_view := cleanup_view w;
     module_view := module_view w |}.

Definition set_currentEditorLanguage v w :=
  {| documentId := documentId w; trainingModule := trainingModule w;
     complianceReport := complianceReport w; cleanupResult := cleanupResult w;
     editorInstance := editorInstance w;
     currentEditorLanguage := v;
     section := section w; process_title := process_title w;
     process_step := process_step w; main_progress := main_progress w;
     editor_status := editor_status w; alerts := alerts w;
     score_view := score_view w; cleanup_view := cleanup_view w;
     module_view := module_view w |}.

(** [showSection(sectionId)] *)
Definition showSection (sectionId : jsstring) w :=
  {| documentId := documentId w; trainingModule := trainingModule w;
     complianceReport := complianceReport w; cleanupResult := cleanupResult w;
     editorInstance := editorInstance w;
     currentEditorLanguage := currentEditorLanguage w;
     section := sectionId; process_title := process_title w;
     process_step := process_step w; main_progress := main_progress w;
     editor_status := editor_status w; alerts := alerts w;
     score_view := score_view w; cleanup_view := cleanup_view w;
     module_view := module_view w |}.

Definition set_process_title (t : jsstring) w :=
  {| documentId := documentId w; trainingModule := trainingModule w;
     complianceReport := complianceReport w; cleanupResult := cleanupResult w;
     editorInstance := editorInstance w;
     currentEditorLanguage := currentEditorLanguage w;
     section := section w; process_title := t;
     process_step := process_step w; main_progress := main_progress w;
     editor_status := editor_status w; alerts := alerts w;
     score_view := score_view w; cleanup_view := cleanup_view w;
     module_view := module_view w |}.

Definition set_process_step (t : jsstring) w :=
  {| documentId := documentId w; trainingModule := trainingModule w;
     complianceReport := complianceReport w; cleanupResult := cleanupResult w;
     editorInstance := editorInstance w;
     currentEditorLanguage := currentEditorLanguage w;
     section := section w; process_title := process_title w;
     process_step := t; main_progress := main_progress w;
     editor_status := editor_status w; alerts := alerts w;
     score_view := score_view w; cleanup_view := cleanup_view w;
     module_view := module_view w |}.

(** [updateProgress(percent, status)]; every call site passes a non-empty
    status. *)
Definition updateProgress (percent : nat) (status : jsstring) w :=
  {| documentId := documentId w; trainingModule := trainingModule w;
     complianceReport := complianceReport w; cleanupResult := cleanupResult w;
     editorInstance := editorInstance w;
     currentEditorLanguage := currentEditorLanguage w;
     section := section w; process_title := process_title w;
     process_step := if truthy (Some status) then status else process_step w;
     main_progress := percent;
     editor_status := editor_status w; alerts := alerts w;
     score_view := score_view w; cleanup_view := cleanup_view w;
     module_view := module_view w |}.

(** [updateEditorStatus(status, className = '')] *)
Definition updateEditorStatus (status className : jsstring) w :=
  {| documentId := documentId w; trainingModule := trainingModule w;
     complianceReport := complianceReport w; cleanupResult := cleanupResult w;
     editorInstance := editorInstance w;
     currentEditorLanguage := currentEditorLanguage w;
     section := section w; process_title := process_title w;
     process_step := process_step w; main_progress := main_progress w;
     editor_status := (status, lit "editor-status " ++ className);
     alerts := alerts w;
     score_view := score_view w; cleanup_view := cleanup_view w;
     module_view := module_view w |}.

(** [alert(message)] *)
Definition alert (message : jsstring) w :=
  {| documentId := documentId w; trainingModule := trainingModule w;
     complianceReport := complianceReport w; cleanupResult := cleanupResult w;
     editorInstance := editorInstance w;
     currentEditorLanguage := currentEditorLanguage w;
     section := section w; process_title := process_title w;
     process_step := process_step w; main_progress := main_progress w;
     editor_status := editor_status w; alerts := alerts w ++ [message];
     score_view := score_view w; cleanup_view := cleanup_view w;
     module_view := module_view w |}.

Definition set_score_view v w :=
  {| documentId := documentId w; trainingModule := trainingModule w;
     complianceReport := complianceReport w; cleanupResult := cleanupResult w;
     editorInstance := editorInstance w;
     currentEditorLanguage := currentEditorLanguage w;
     section := section w; process_title := process_title w;
     process_step := process_step w; main_progress := main_progress w;
     editor_status := editor_status w; alerts := alerts w;
     score_view := v; cleanup_view := cleanup_view w;
     module_view := module_view w |}.

Definition set_cleanup_view v w :=
  {| documentId := documentId w; trainingModule := trainingModule w;
     complianceReport := complianceReport w; cleanupResult := cleanupResult w;
     editorInstance := editorInstance w;
     currentEditorLanguage := currentEditorLanguage w;
     section := section w; process_title := process_title w;
     process_step := process_step w; main_progress := main_progress w;
     editor_status := editor_status w; alerts := alerts w;
     score_view := score_view w; cleanup_view := v;
     module_view := module_view w |}.

Definition set_module_view v w :=
  {| documentId := documentId w; trainingModule := trainingModule w;
     complianceReport := complianceReport w; cleanupResult := cleanupResult w;
     editorInstance := editorInstance w;
     currentEditorLanguage := currentEditorLanguage w;
     section := section w; process_title := process_title w;
     process_step := process_step w; main_progress := main_progress w;
     editor_status := editor_status w; alerts := alerts w;
     score_view := score_view w; cleanup_view := cleanup_view w;
     module_view := v |}.

(** The state of a freshly loaded page. *)
Definition initial_world : World :=
  {| documentId := None; trainingModule := None; complianceReport := None;
     cleanupResult := None; editorInstance := None;
     currentEditorLanguage := lit "indonesian";
     section := lit "upload"; process_title := []; process_step := [];
     main_progress := 0; editor_status := ([], []); alerts := [];
     score_view := None; cleanup_view := None; module_view := None |}.

(** The renderers as they act on the page.  [renderTrainingModule] also
    assigns [documentId = module.document_id]. *)
Definition render_report (report : ComplianceReport) w :=
  set_score_view (Some (renderComplianceReport report)) w.

Definition render_cleanup (result : CleanupResult) w :=
  set_cleanup_view (Some (renderCleanupResults result)) w.

Definition renderTrainingModule (module : TrainingModule) w :=
  set_module_view (Some (module_content module))
    (set_documentId (Some (tm_document_id module)) w).

(* ================================================================== *)
(** ** Bilingual editor *)
(* ================================================================== *)

(** A statement either completes or throws; the state reached is kept in
    both cases. *)
Inductive Completion : Type :=
| Normal (w : World)
| Throws (w : World).

Definition world_of (c : Completion) : World :=
  match c with Normal w => w | Throws w => w end.

(** Sequencing: a throw ends the sequence. *)
Definition and_then (c : Completion) (f : World -> Completion) : Completion :=
  match c with
  | Normal w => f w
  | Throws w => Throws w
  end.

Definition set_edited_indonesian (v : jsstring) (r : CleanupResult) :=
  {| cr_document_id := cr_document_id r;
     original_content := original_content r;
     cleaned_indonesian := cleaned_indonesian r;
     cleaned_english := cleaned_english r;
     edited_indonesian := Some v;
     edited_english := edited_english r;
     issues := issues r; change_summary := change_summary r;
     open_items := open_items r |}.

Definition set_edited_english (v : jsstring) (r : CleanupResult) :=
  {| cr_document_id := cr_document_id r;
     original_content := original_content r;
     cleaned_indonesian := cleaned_indonesian r;
     cleaned_english := cleaned_english r;
     edited_indonesian := edited_indonesian r;
     edited_english := Some v;
     issues := issues r; change_summary := change_summary r;
     open_items := open_items r |}.

Definition is_indonesian (lang : jsstring) : bool :=
  eqb_str lang (lit "indonesian").

(** The assignment [cleanupResult.edited_<language> = content], language
    being the current one. *)
Definition store_edited (lang content : jsstring) (r : CleanupResult) :=
  if is_indonesian lang then set_edited_indonesian content r
  else set_edited_english content r.

(** The content the editor is loaded with:
    [edited_x || cleaned_x || ''] of the current language. *)
Definition editor_content (lang : jsstring) (r : CleanupResult) : jsstring :=
  if is_indonesian lang
  then or_lit (or_else (edited_indonesian r) (cleaned_indonesian r)) []
  else or_lit (or_else (edited_english r) (cleaned_english r)) [].

Definition destroyEditor (w : World) : World :=
  match editorInstance w with
  | Some _ => set_editorInstance None w
  | None => w
  end.

(** The cleanup result after the capture made by [switchEditorLanguage]:
    the content of the live surface, if there is one, is stored in the
    buffer of the current language. *)
Definition captured (w : World) (r : CleanupResult) : CleanupResult :=
  match editorInstance w with
  | Some editor =>
      store_edited (currentEditorLanguage w) (root_innerHTML editor) r
  | None => r
  end.

Section Editor.

(** The editing surface is an external widget.  [quill_paste html] is
    the serialised content of a new instance's root after
    [clipboard.dangerouslyPasteHTML(html)]. *)
Variable quill_paste : jsstring -> jsstring.

(** The serialised content of a surface opened on the content of [lang]. *)
Definition loaded (lang : jsstring) (r : CleanupResult) : jsstring :=
  quill_paste (convertTextToHtml (Some (editor_content lang r))).

Definition initQuillEditor (w : World) : Completion :=
  let w := destroyEditor w in
  match cleanupResult w with
  | None => Throws w             (* property read on null *)
  | Some r =>
      let content := editor_content (currentEditorLanguage w) r in
      let htmlContent := convertTextToHtml (Some content) in
      let w :=
        set_editorInstance
          (Some {| root_innerHTML := quill_paste htmlContent |}) w in
      Normal (updateEditorStatus (lit "Ready") [] w)
  end.

Definition switchEditorLanguage (lang : jsstring) (w : World) : Completion :=
  let w :=
    match editorInstance w, cleanupResult w with
    | Some editor, Some r =>
        let currentContent := root_innerHTML editor in
        set_cleanupResult
          (Some (store_edited (currentEditorLanguage w) currentContent r)) w
    | _, _ => w
    end in
  let w := set_currentEditorLanguage lang w in
  initQuillEditor w.

Definition openDocumentEditor (w : World) : Completion :=
  let w := showSection (lit "editor") w in
  let w := set_currentEditorLanguage (lit "indonesian") w in
  initQuillEditor w.

End Editor.

(** The user types: the surface content changes and the [text-change]
    handler runs. *)
Definition user_edit (html : jsstring) (w : World) : World :=
  match editorInstance w with
  | Some _ =>
      updateEditorStatus (lit "Unsaved changes") []
        (set_editorInstance (Some {| root_innerHTML := html |}) w)
  | None => w
  end.

(** The content of the live surface, if any. *)
Definition surface (w : World) : option jsstring :=
  option_map root_innerHTML (editorInstance w).

(** The spec's wording of the content to load, with the nullish operator:
    [edited_x ?? cleaned_x ?? ""]. *)
Definition nullish (a b : option jsstring) : option jsstring :=
  match a with
  | Some _ => a
  | None => b
  end.

Definition spec_editor_content (lang : jsstring) (r : CleanupResult) : jsstring :=
  let v :=
    if is_indonesian lang
    then nullish (edited_indonesian r) (cleaned_indonesian r)
    else nullish (edited_english r) (cleaned_english r) in
  match v with Some s => s | None => [] end.

(* ================================================================== *)
(** ** Asynchronous handlers *)
(* ================================================================== *)

(** The requests sent with [fetch], indexed by the type of the JSON body
    the handler reads from the response. *)
Inductive Request : Type -> Type :=
| POST_documents_upload (file : jsstring) : Request UploadData
| GET_cleanup (docId : option jsstring) : Request CleanupResult
| POST_cleanup_rerun (docId : option jsstring) : Request CleanupResult
| PUT_cleanup_save (docId : option jsstring) (content_html language : jsstring)
    : Request unit
| POST_modules_create (docId : option jsstring) : Request TrainingModule
| GET_modules (docId : option jsstring) : Request TrainingModule
| POST_review (docId : option jsstring) (focus_areas : option jsstring)
    : Request ComplianceReport
| GET_review_report (docId : option jsstring) : Request ComplianceReport.

(** How [await fetch(...)] followed by [await res.json()] can end. *)
Inductive Outcome (A : Type) : Type :=
| Rejected (message : jsstring)      (* fetch() rejects: no response *)
| NotOk                              (* a response with res.ok false *)
| BadBody (message : jsstring)       (* res.ok, but res.json() rejects *)
| Ok (body : A).                     (* res.ok and a parsed body *)

Arguments Rejected {A} message.
Arguments NotOk {A}.
Arguments BadBody {A} message.
Arguments Ok {A} body.

(** A handler runs until it awaits a response or ends.  What is left of it
    is a task: nothing, a pending request with the code that resumes on its
    outcome in the state of that later time, or a timer callback. *)
#[local] Unset Elimination Schemes.
Inductive Task : Type :=
| Done
| Await (A : Type) (request : Request A)
        (resume : Outcome A -> World -> World * Task)
| SetTimeout (ms : nat) (callback : World -> World).

#[local] Set Elimination Schemes.

Arguments Await {A} request resume.

(** The failure of a stage caught by the handler's [catch]:
    [alert(prefix + err.message); showSection(back)]. *)
Definition stage_failed (prefix message back : jsstring) (w : World)
  : World * Task :=
  (showSection back (alert (prefix ++ message) w), Done).

(** [err.message] for the errors the handlers throw themselves and for the
    rejections of [fetch] and [json]. *)
Definition failure_message {A : Type} (thrown : jsstring) (o : Outcome A)
  : jsstring :=
  match o with
  | Rejected m => m
  | NotOk => thrown
  | BadBody m => m
  | Ok _ => []
  end.

(** *** Upload, cleanup analysis and module creation *)

(** The timer callbacks read the module variables when they fire. *)
Definition module_timer (w : World) : World :=
  match trainingModule w with
  | Some m => showSection (lit "module") (renderTrainingModule m w)
  | None => w
  end.

Definition cleanup_timer (w : World) : World :=
  match cleanupResult w with
  | Some r => showSection (lit "cleanup") (render_cleanup r w)
  | None => w
  end.

Definition report_timer (w : World) : World :=
  match complianceReport w with
  | Some r => showSection (lit "report") (render_report r w)
  | None => w
  end.

(** After [POST /modules/create/{id}]; [back] is the section shown when the
    creation fails. *)
Definition after_module_create (back : jsstring)
  (o : Outcome TrainingModule) (w : World) : World * Task :=
  match o with
  | Ok m =>
      (updateProgress 100 (lit "Module ready!") (set_trainingModule (Some m) w),
       SetTimeout 500 module_timer)
  | _ =>
      stage_failed (lit "Error: ")
        (failure_message (lit "Module creation failed") o) back w
  end.

(** After [GET /cleanup/{id}] in the upload flow.  The inner [try] swallows
    a rejection; a response that is not ok skips the [if]. *)
Definition after_cleanup_fetch (o : Outcome CleanupResult) (w : World)
  : World * Task :=
  match o with
  | Ok r =>
      (updateProgress 70 (lit "Cleanup analysis complete!")
         (set_cleanupResult (Some r) w),
       SetTimeout 500 cleanup_timer)
  | _ =>
      let w :=
        updateProgress 70
          (lit "Analyzing structure and creating training module...") w in
      (w, Await (POST_modules_create (documentId w))
                (after_module_create (lit "upload")))
  end.

Definition after_upload (o : Outcome UploadData) (w : World) : World * Task :=
  match o with
  | Ok uploadData =>
      let w := set_documentId (Some (id uploadData)) w in
      let w := updateProgress 40 (lit "Running NDA cleanup analysis...") w in
      (w, Await (GET_cleanup (documentId w)) after_cleanup_fetch)
  | _ =>
      stage_failed (lit "Error: ") (failure_message (lit "Upload failed") o)
        (lit "upload") w
  end.

(** The click handler of [startProcessBtn]; [file] is [fileInput.files[0]]. *)
Definition startProcessBtn_click (file : option jsstring) (w : World)
  : World * Task :=
  match file with
  | None => (w, Done)
  | Some f =>
      let w := showSection (lit "processing") w in
      let w := updateProgress 0 (lit "Uploading document...") w in
      (w, Await (POST_documents_upload f) after_upload)
  end.

(** The click handler of [skip-to-module-btn]. *)
Definition skip_to_module_click (w : World) : World * Task :=
  if negb (truthy (documentId w)) then (w, Done)
  else
    let w := showSection (lit "processing") w in
    let w := set_process_title (lit "Creating Training Module...") w in
    let w := updateProgress 30 (lit "Analyzing document structure...") w in
    (w, Await (POST_modules_create (documentId w))
              (after_module_create (lit "cleanup"))).

(** The click handler of [rerun-cleanup-btn]. *)
Definition after_cleanup_rerun (o : Outcome CleanupResult) (w : World)
  : World * Task :=
  match o with
  | Ok r =>
      (updateProgress 100 (lit "Analysis complete!")
         (set_cleanupResult (Some r) w),
       SetTimeout 500 cleanup_timer)
  | _ =>
      stage_failed (lit "Error: ") (failure_message (lit "Cleanup failed") o)
        (lit "cleanup") w
  end.

Definition rerun_cleanup_click (w : World) : World * Task :=
  if negb (truthy (documentId w)) then (w, Done)
  else
    let w := showSection (lit "processing") w in
    let w := set_process_title (lit "Re-running Cleanup Analysis...") w in
    let w := updateProgress 30 (lit "Analyzing document with LLM...") w in
    (w, Await (POST_cleanup_rerun (documentId w)) after_cleanup_rerun).

(** *** History and documents *)

(** The [catch] blocks of these three click the navigation item of the
    list they came from; the reloading of the list is not modelled. *)
Definition after_report_fetch (o : Outcome ComplianceReport) (w : World)
  : World * Task :=
  match o with
  | Ok r =>
      let w := set_complianceReport (Some r) w in
      (showSection (lit "report") (render_report r w), Done)
  | _ =>
      stage_failed [] (failure_message (lit "Report not found") o)
        (lit "history") w
  end.

Definition viewExistingReport (docId : jsstring) (w : World) : World * Task :=
  let w := showSection (lit "processing") w in
  let w := set_process_title (lit "Loading Report...") w in
  let w := set_process_step (lit "Fetching analysis from database.") w in
  let w := set_documentId (Some docId) w in
  (w, Await (GET_review_report (Some docId)) after_report_fetch).

Definition after_module_fetch (o : Outcome TrainingModule) (w : World)
  : World * Task :=
  match o with
  | Ok m =>
      let w := set_trainingModule (Some m) w in
      (showSection (lit "module") (renderTrainingModule m w), Done)
  | _ =>
      stage_failed [] (failure_message (lit "Could not load document module") o)
        (lit "documents") w
  end.

Definition reAnalyzeDocument (docId : jsstring) (w : World) : World * Task :=
  let w := showSection (lit "processing") w in
  let w := set_documentId (Some docId) w in
  (w, Await (GET_modules (Some docId)) after_module_fetch).

Definition after_cleanup_view_fetch (o : Outcome CleanupResult) (w : World)
  : World * Task :=
  match o with
  | Ok r =>
      let w := set_cleanupResult (Some r) w in
      (showSection (lit "cleanup") (render_cleanup r w), Done)
  | _ =>
      stage_failed [] (failure_message (lit "Cleanup results not found") o)
        (lit "documents") w
  end.

Definition viewCleanupResults (docId : jsstring) (w : World) : World * Task :=
  let w := showSection (lit "processing") w in
  let w := set_process_title (lit "Loading Cleanup Results...") w in
  let w := set_process_step (lit "Fetching analysis from database.") w in
  let w := set_documentId (Some docId) w in
  (w, Await (GET_cleanup (Some docId)) after_cleanup_view_fetch).

(** *** Compliance review *)

Definition after_review (o : Outcome ComplianceReport) (w : World)
  : World * Task :=
  match o with
  | Ok r =>
      (updateProgress 100 (lit "Analysis complete!")
         (set_complianceReport (Some r) w),
       SetTimeout 800 report_timer)
  | _ =>
      stage_failed (lit "Error: ")
        (failure_message (lit "Compliance review failed") o) (lit "module") w
  end.

(** The click handler of [startReviewBtn]; [focusArea] is the value of the
    select element. *)
Definition startReviewBtn_click (focusArea : jsstring) (w : World)
  : World * Task :=
  if negb (truthy (documentId w)) then (w, Done)
  else
    let requestBody :=
      if truthy (Some focusArea) then Some focusArea else None in
    let w := showSection (lit "processing") w in
    let w := set_process_title (lit "Analyzing Compliance...") w in
    let w :=
      set_process_step
        (lit "Comparing against up-to-date Indonesian law knowledge base.") w in
    let w := updateProgress 10 (lit "Retrieving legal context via RAG...") w in
    (w, Await (POST_review (documentId w) requestBody) after_review).

(** *** Saving the edited document *)

(** The [catch] of [saveEditedDocument]. *)
Definition save_failed (message : jsstring) (w : World) : World * Task :=
  (alert (lit "Failed to save document: " ++ message)
     (updateEditorStatus (lit "Error saving") (lit "error") w),
   Done).

(** The text of the TypeError raised by the assignment
    [cleanupResult.edited_<language> = content] when [cleanupResult] is
    [null]; the wording is the engine's (here V8's). *)
Definition null_assignment_message (lang : jsstring) : jsstring :=
  lit "Cannot set properties of null (setting '"
    ++ (if is_indonesian lang then lit "edited_indonesian"
        else lit "edited_english")
    ++ lit "')".

Definition after_save (content : jsstring) (o : Outcome unit) (w : World)
  : World * Task :=
  match o with
  | Ok _ =>
      match cleanupResult w with
      | Some r =>
          let w :=
            set_cleanupResult
              (Some (store_edited (currentEditorLanguage w) content r)) w in
          (updateEditorStatus (lit "Saved successfully") (lit "saved") w,
           SetTimeout 3000 (updateEditorStatus (lit "Ready") []))
      | None => save_failed (null_assignment_message (currentEditorLanguage w)) w
      end
  | _ => save_failed (failure_message (lit "Failed to save document") o) w
  end.

Definition saveEditedDocument (w : World) : World * Task :=
  match editorInstance w with
  | None => (w, Done)
  | Some editor =>
      if negb (truthy (documentId w)) then (w, Done)
      else
        let w := updateEditorStatus (lit "Saving...") (lit "saving") w in
        let content := root_innerHTML editor in
        (w, Await (PUT_cleanup_save (documentId w) content
                     (currentEditorLanguage w))
                  (after_save content))
  end.

(** *** The event loop *)

(** The document a request was issued for. *)
Definition request_document {A : Type} (r : Request A) : option jsstring :=
  match r with
  | POST_documents_upload _ => None
  | GET_cleanup d => d
  | POST_cleanup_rerun d => d
  | PUT_cleanup_save d _ _ => d
  | POST_modules_create d => d
  | GET_modules d => d
  | POST_review d _ => d
  | GET_review_report d => d
  end.

(** What the user can trigger. *)
Inductive UserAction : Type :=
| ClickStartProcess (file : option jsstring)
| ClickSkipToModule
| ClickRerunCleanup
| ClickViewReport (docId : jsstring)
| ClickAnalyzeAgain (docId : jsstring)
| ClickViewCleanup (docId : jsstring)
| ClickStartReview (focusArea : jsstring)
| ClickSave.

Definition handler (a : UserAction) : World -> World * Task :=
  match a with
  | ClickStartProcess file => startProcessBtn_click file
  | ClickSkipToModule => skip_to_module_click
  | ClickRerunCleanup => rerun_cleanup_click
  | ClickViewReport docId => viewExistingReport docId
  | ClickAnalyzeAgain docId => reAnalyzeDocument docId
  | ClickViewCleanup docId => viewCleanupResults docId
  | ClickStartReview focusArea => startReviewBtn_click focusArea
  | ClickSave => saveEditedDocument
  end.

(** The page between two turns of the event loop: the state and the tasks
    waiting for a response or a timer. *)
Record System := {
  world : World;
  pending : list Task
}.

Definition initial_system : System :=
  {| world := initial_world; pending := [] |}.

(** One turn: a user action runs its handler up to the first [await]; a
    response resumes the task that waits for it, whatever was done since
    the request was sent; a timer fires. *)
Inductive turn : System -> System -> Prop :=
| turn_user (a : UserAction) (s : System) :
    turn s {| world := fst (handler a (world s));
              pending := pending s ++ [snd (handler a (world s))] |}
| turn_response (A : Type) (request : Request A) resume (o : Outcome A)
    (w : World) (before after : list Task) :
    turn {| world := w; pending := before ++ Await request resume :: after |}
         {| world := fst (resume o w);
            pending := before ++ after ++ [snd (resume o w)] |}
| turn_timer (ms : nat) callback (w : World) (before after : list Task) :
    turn {| world := w; pending := before ++ SetTimeout ms callback :: after |}
         {| world := callback w; pending := before ++ after |}.

Inductive reachable : System -> Prop :=
| reachable_initial : reachable initial_system
| reachable_turn s s' : reachable s -> turn s s' -> reachable s'.

(** *** What a response does to the session *)

(** A response that is not a successful one with a parsed body. *)
Definition failed {A : Type} (o : Outcome A) : bool :=
  match o with
  | Ok _ => false
  | _ => true
  end.

(** The four session variables. *)
Definition session_of (w : World) :=
  (documentId w, trainingModule w, complianceReport w, cleanupResult w).

(** [stored_in request body w w']: in [w'] the body of the response to
    [request] has been assigned to the session variable of its stage, [w]
    being the state in which the response arrived. *)
Definition stored_in {A : Type} (request : Request A)
  : A -> World -> World -> Prop :=
  match request in Request T return T -> World -> World -> Prop with
  | POST_documents_upload _ =>
      fun body _ w' => documentId w' = Some (id body)
  | GET_cleanup _ => fun body _ w' => cleanupResult w' = Some body
  | POST_cleanup_rerun _ => fun body _ w' => cleanupResult w' = Some body
  | PUT_cleanup_save _ content _ =>
      fun _ w w' =>
        cleanupResult w' =
        option_map (store_edited (currentEditorLanguage w) content)
                   (cleanupResult w)
  | POST_modules_create _ => fun body _ w' => trainingModule w' = Some body
  | GET_modules _ => fun body _ w' => trainingModule w' = Some body
  | POST_review _ _ => fun body _ w' => complianceReport w' = Some body
  | GET_review_report _ => fun body _ w' => complianceReport w' = Some body
  end.

(** A task all of whose resumptions store a successful response without
    looking at the active document, and leave the session alone on a
    failure. *)
Fixpoint unguarded (t : Task) : Prop :=
  match t with
  | Done => True
  | SetTimeout _ _ => True
  | Await request resume =>
      (forall body w, stored_in request body w (fst (resume (Ok body) w))) /\
      (forall o w, failed o = true ->
                   session_of (fst (resume o w)) = session_of w) /\
      (forall o w, unguarded (snd (resume o w)))
  end.

(* ================================================================== *)
(** ** Sample data *)
(* ================================================================== *)

Definition report_scoring (n : Z) : ComplianceReport :=
  {| rp_document_id := lit "doc-1"; compliance_score := Some n |}.

Definition sample_issue : CleanupIssue :=
  {| issue_type := Some (lit "terminology");
     location := Some (lit "Pasal 1");
     original_text := Some (lit "a<b");
     rule := Some (lit "r") |}.

Definition sample_result : CleanupResult :=
  {| cr_document_id := lit "doc-1";
     original_content := Some (lit "x a<b y a<b");
     cleaned_indonesian := None; cleaned_english := None;
     edited_indonesian := None; edited_english := None;
     issues := Some [sample_issue];
     change_summary := None; open_items := None |}.

Definition sample_plain_text : jsstring :=
  lit "PASAL 1" ++ [nl; nl] ++ lit "isi".

(** A cleanup result whose Indonesian text has an empty edited value. *)
Definition result_with_empty_edit : CleanupResult :=
  {| cr_document_id := lit "doc-1";
     original_content := Some (lit "teks");
     cleaned_indonesian := Some (lit "teks");
     cleaned_english := Some (lit "text");
     edited_indonesian := Some [];
     edited_english := None;
     issues := None; change_summary := None; open_items := None |}.

Definition world_with_empty_edit : World :=
  set_cleanupResult (Some result_with_empty_edit)
    (set_documentId (Some (lit "doc-1")) initial_world).

(** An editing surface that serialises what it was given. *)
Definition plain_surface (html : jsstring) : jsstring := html.

Definition report_of_doc_A : ComplianceReport :=
  {| rp_document_id := lit "doc-A"; compliance_score := Some 95%Z |}.

(** The editor open on a document, with unsaved text in the surface. *)
Definition world_editing : World :=
  set_editorInstance (Some {| root_innerHTML := lit "<p>teks baru</p>" |})
    world_with_empty_edit.

(** The system after two reports were opened from the history list, the
    second before the first response came back. *)
Definition two_reports_requested : System :=
  let s1 :=
    {| world := fst (handler (ClickViewReport (lit "doc-A")) initial_world);
       pending := [snd (handler (ClickViewReport (lit "doc-A")) initial_world)] |} in
  {| world := fst (handler (ClickViewReport (lit "doc-B")) (world s1));
     pending :=
       pending s1 ++ [snd (handler (ClickViewReport (lit "doc-B")) (world s1))] |}.

(* ================================================================== *)
(** ** Further parts of the page *)
(* ================================================================== *)

(** *** Theme *)

(** The class of [document.body], the [theme] entry of [localStorage] and
    the two elements written by [updateThemeUI]. *)
Record ThemeState := {
  body_className : jsstring;
  stored_theme : option jsstring;
  theme_icon : jsstring;
  theme_text : jsstring
}.

Definition moon_icon : jsstring := [55356%N; 57113%N].      (* U+1F319 *)
Definition sun_icon : jsstring := [9728%N; 65039%N].        (* U+2600 U+FE0F *)

Definition updateThemeUI (theme : jsstring) (st : ThemeState) : ThemeState :=
  if eqb_str theme (lit "dark-theme") then
    {| body_className := body_className st; stored_theme := stored_theme st;
       theme_icon := moon_icon; theme_text := lit "Dark Mode" |}
  else
    {| body_className := body_className st; stored_theme := stored_theme st;
       theme_icon := sun_icon; theme_text := lit "Light Mode" |}.

Definition initTheme (st : ThemeState) : ThemeState :=
  let savedTheme := or_lit (stored_theme st) (lit "dark-theme") in
  updateThemeUI savedTheme
    {| body_className := savedTheme; stored_theme := stored_theme st;
       theme_icon := theme_icon st; theme_text := theme_text st |}.

Definition toggleTheme (st : ThemeState) : ThemeState :=
  let currentTheme := body_className st in
  let newTheme :=
    if eqb_str currentTheme (lit "dark-theme")
    then lit "light-theme" else lit "dark-theme" in
  updateThemeUI newTheme
    {| body_className := newTheme; stored_theme := Some newTheme;
       theme_icon := theme_icon st; theme_text := theme_text st |}.

(** A page load: only [localStorage] survives; [markup_class] is the class
    the document comes with. *)
Definition page_load (markup_class : jsstring) (storage : option jsstring)
  : ThemeState :=
  initTheme {| body_className := markup_class; stored_theme := storage;
               theme_icon := []; theme_text := [] |}.

(** *** Clauses of a training module *)

Record Clause := {
  clause_title : jsstring;
  category : jsstring;
  clause_text : jsstring;
  relevant_laws : option (list jsstring)
}.

(** [${clause.clause_text.substring(0, 150)}...] *)
Definition clause_excerpt (clause : Clause) : jsstring :=
  firstn 150 (clause_text clause) ++ lit "...".

Definition law_badge (law : jsstring) : jsstring :=
  lit "<span class=" ++ dq ++ lit "badge" ++ dq ++ lit " style=" ++ dq
    ++ lit "background: rgba(99, 102, 241, 0.2); color: var(--primary); text-transform: none"
    ++ dq ++ lit ">" ++ law ++ lit "</span>".

(** [clause.relevant_laws ? clause.relevant_laws.slice(0, 2).map(...) : ''],
    before the [join('')]. *)
Definition clause_law_badges (clause : Clause) : list jsstring :=
  match relevant_laws clause with
  | Some laws => map law_badge (firstn 2 laws)
  | None => []
  end.

(** *** Word count of the editor *)

(** [s.split(/\s+/)]: the separators are the maximal runs of white space. *)
Fixpoint split_spaces (s acc : jsstring) (in_sep : bool) : list jsstring :=
  match s with
  | [] => [rev acc]
  | c :: r =>
      if is_space c then
        if in_sep then split_spaces r acc true
        else rev acc :: split_spaces r [] true
      else split_spaces r (c :: acc) false
  end.

(** [content.trim().split(/\s+/).filter(w => w.length > 0).length] *)
Definition word_count (content : jsstring) : nat :=
  length (filter (fun w => 0 <? length w)
                 (split_spaces (trim content) [] false)).

(** The number of places of a text where a word begins: a character that
    is not white space, at the start or after white space. *)
Fixpoint word_starts (after_space : bool) (s : jsstring) : nat :=
  match s with
  | [] => 0
  | c :: r =>
      if is_space c then word_starts true r
      else (if after_space then 1 else 0) + word_starts false r
  end.

(** *** Leaving and entering the editor *)

(** The click handler of [back-to-cleanup-btn]. *)
Definition back_to_cleanup_click (w : World) : World :=
  showSection (lit "cleanup") (destroyEditor w).

(** The click handler of [edit-document-btn]. *)
Definition edit_document_click (quill_paste : jsstring -> jsstring) (w : World)
  : Completion :=
  match cleanupResult w with
  | None => Normal w
  | Some _ => openDocumentEditor quill_paste w
  end.

(** *** The upload handler of the earlier version of the script *)

Module Earlier.

Definition after_upload (o : Outcome UploadData) (w : World) : World * Task :=
  match o with
  | Ok uploadData =>
      let w := set_documentId (Some (id uploadData)) w in
      let w :=
        updateProgress 30
          (lit "Analyzing structure and creating training module...") w in
      (w, Await (POST_modules_create (documentId w))
                (after_module_create (lit "upload")))
  | _ =>
      stage_failed (lit "Error: ") (failure_message (lit "Upload failed") o)
        (lit "upload") w
  end.

Definition startProcessBtn_click (file : option jsstring) (w : World)
  : World * Task :=
  match file with
  | None => (w, Done)
  | Some f =>
      let w := showSection (lit "processing") w in
      let w := updateProgress 0 (lit "Uploading document...") w in
      (w, Await (POST_documents_upload f) after_upload)
  end.

End Earlier.

(** *** Texts without a blank line *)

(** No two line feeds in a row. *)
Fixpoint no_blank_line (s : jsstring) : bool :=
  match s with
  | c :: r =>
      match r with
      | d :: _ => negb ((c =? nl)%N && (d =? nl)%N)
      | [] => true
      end && no_blank_line r
  | [] => true
  end.

(** *** The highlight loop, step by step *)





(** *** Types that name an inherited property *)

(** The names of the properties of [Object.prototype]. *)
Definition inherited_name (key : jsstring) : bool :=
  existsb (eqb_str key)
    [ lit "constructor"; lit "hasOwnProperty"; lit "isPrototypeOf";
      lit "propertyIsEnumerable"; lit "toLocaleString"; lit "toString";
      lit "valueOf"; lit "__proto__"; lit "__defineGetter__";
      lit "__defineSetter__"; lit "__lookupGetter__"; lit "__lookupSetter__" ].

(** *** Invariants of the pending tasks *)

(** Every [<] of a string opens [<br>]. *)
Fixpoint lt_opens_br (s : jsstring) : bool :=
  match s with
  | [] => true
  | c :: r =>
      (if (c =? 60)%N then startsWith r (lit "br>") else true) && lt_opens_br r
  end.

(** The document of the request a task waits for, if it waits for one. *)
Definition task_document (t : Task) : option (option jsstring) :=
  match t with
  | Await request _ => Some (request_document request)
  | _ => None
  end.

(** The sections a failed stage goes back to. *)
Definition resting_sections : list jsstring :=
  [lit "upload"; lit "cleanup"; lit "module"; lit "history"; lit "documents"].

(** What a resumption does with a failed response: either it ends with
    one alert, the session untouched and the page on a resting section (or
    on the section it was on), or it raises no alert and sends the next
    request. *)
Definition failure_surfaced (w : World) (r : World * Task) : Prop :=
  (snd r = Done /\
   (exists message, alerts (fst r) = alerts w ++ [message]) /\
   session_of (fst r) = session_of w /\
   (section (fst r) = section w \/ In (section (fst r)) resting_sections)) \/
  (alerts (fst r) = alerts w /\
   section (fst r) = section w /\
   session_of (fst r) = session_of w /\
   exists resume,
     snd r = Await (POST_modules_create (documentId w)) resume).

Fixpoint surfaces_failures (t : Task) : Prop :=
  match t with
  | Await _ resume =>
      (forall o w, failed o = true -> failure_surfaced w (resume o w)) /\
      (forall o w, surfaces_failures (snd (resume o w)))
  | _ => True
  end.

(** From a bar at [percent], a task never moves the bar back, as long as
    nothing else moved it when the task resumes. *)
Fixpoint progress_rises (percent : nat) (t : Task) : Prop :=
  match t with
  | Done => True
  | SetTimeout _ callback =>
      forall w, main_progress w = percent -> main_progress (callback w) = percent
  | Await _ resume =>
      forall o w, main_progress w = percent ->
        percent <= main_progress (fst (resume o w)) /\
        progress_rises (main_progress (fst (resume o w))) (snd (resume o w))
  end.

(** A result whose issues do not occur in its text. *)
Definition result_without_match : CleanupResult :=
  {| cr_document_id := lit "doc-2";
     original_content := Some (lit "x < y");
     cleaned_indonesian := None; cleaned_english := None;
     edited_indonesian := None; edited_english := None;
     issues :=
       Some [sample_issue;
             {| issue_type := None; location := None;
                original_text := None; rule := None |}];
     change_summary := None; open_items := None |}.

(** The editor open on the English text, edited and not yet saved. *)
Definition world_editing_english : World :=
  set_currentEditorLanguage (lit "english") world_editing.

Definition sample_clause : Clause :=
  {| clause_title := lit "Kerahasiaan"; category := lit "contract";
     clause_text := lit "Para pihak wajib menjaga kerahasiaan.";
     relevant_laws := Some [lit "UU 11/2008"; lit "UU 27/2022"; lit "KUHPerdata"] |}.


(* ================================================================== *)
(** * Properties *)
(* ================================================================== *)

(** ** Excerpts and escaping *)

Lemma truncateText_missing (n : nat) :
  truncateText None n = [] /\ truncateText (Some []) n = [].
Proof. split; reflexivity. Qed.

(** C8: [truncateText] with limit 100 returns a string of at most 100 code
    units unchanged, returns the first 100 code units followed by [...]
    for a longer one, and the empty string for [null]/[undefined]; the
    issue cards of [renderCleanupResults] show excerpts cut at 100. *)
Theorem truncateText_100 (text : option jsstring) :
  match text with
  | None => truncateText text 100 = []
  | Some s =>
      (length s <= 100 -> truncateText text 100 = s) /\
      (100 < length s ->
       truncateText text 100 = firstn 100 s ++ lit "..." /\
       length (firstn 100 s) = 100)
  end /\
  forall result : CleanupResult,
    map card_original_text (issues_list (renderCleanupResults result)) =
    map (fun i => dq ++ escapeHtml (Some (truncateText (original_text i) 100)) ++ dq)
        (match issues result with Some l => l | None => [] end).
Proof.
  split.
  - destruct text as [s|]; [|reflexivity].
    split.
    + intros Hle. destruct s as [|c s]; [reflexivity|].
      unfold truncateText.
      destruct (Nat.leb_spec (length (c :: s)) 100); [reflexivity|lia].
    + intros Hgt. destruct s as [|c s]; [simpl in Hgt; lia|].
      unfold truncateText.
      destruct (Nat.leb_spec (length (c :: s)) 100); [lia|].
      split; [reflexivity|]. apply firstn_length_le. lia.
  - intros result. unfold renderCleanupResults. cbn [issues_list].
    rewrite map_map. reflexivity.
Qed.

Lemma truncateText_100_witness :
  (length (lit "PIHAK PERTAMA") <= 100 /\
   truncateText (Some (lit "PIHAK PERTAMA")) 100 = lit "PIHAK PERTAMA") /\
  (100 < length (repeat 65%N 101) /\
   truncateText (Some (repeat 65%N 101)) 100 = repeat 65%N 100 ++ lit "...").
Proof.
  split.
  - split; [vm_compute; lia|].
    apply (proj1 (proj1 (truncateText_100 (Some (lit "PIHAK PERTAMA"))))).
    vm_compute; lia.
  - split; [vm_compute; lia|].
    apply (proj1 (proj2 (proj1 (truncateText_100 (Some (repeat 65%N 101))))
                   ltac:(vm_compute; lia))).
Defined.

(** C9: [formatDocumentText] escapes [<] and [>] but leaves [&] alone, so
    the strings [<] and [&lt;] are both rendered as [&lt;]; no decoder of
    the rendered text recovers every original. *)
Theorem formatDocumentText_not_injective :
  formatDocumentText (Some (lit "<")) = lit "&lt;" /\
  formatDocumentText (Some (lit ">")) = lit "&gt;" /\
  formatDocumentText (Some (lit "&")) = lit "&" /\
  formatDocumentText (Some (lit "&lt;")) = lit "&lt;" /\
  lit "<" <> lit "&lt;" /\
  ~ exists decode : jsstring -> jsstring,
      forall text, decode (formatDocumentText (Some text)) = text.
Proof.
  repeat (split; [reflexivity|]).
  split; [discriminate|].
  intros [decode Hdec].
  pose proof (Hdec (lit "<")) as H1.
  pose proof (Hdec (lit "&lt;")) as H2.
  change (formatDocumentText (Some (lit "<"))) with (lit "&lt;") in H1.
  change (formatDocumentText (Some (lit "&lt;"))) with (lit "&lt;") in H2.
  rewrite H1 in H2. discriminate H2.
Qed.

(** ** Compliance status *)

(** C5: the report renderer labels a score [COMPLIANT] from 90 up,
    [MOSTLY COMPLIANT] from 70 up to 89, [NEEDS REVIEW] from 50 up to 69 and
    [NON-COMPLIANT] below 50. *)
Theorem renderComplianceReport_status (report : ComplianceReport) (score : Z) :
  compliance_score report = Some score ->
  ((90 <= score)%Z ->
   status_label (renderComplianceReport report) = lit "COMPLIANT") /\
  ((70 <= score < 90)%Z ->
   status_label (renderComplianceReport report) = lit "MOSTLY COMPLIANT") /\
  ((50 <= score < 70)%Z ->
   status_label (renderComplianceReport report) = lit "NEEDS REVIEW") /\
  ((score < 50)%Z ->
   status_label (renderComplianceReport report) = lit "NON-COMPLIANT").
Proof.
  intros Hs. unfold renderComplianceReport. rewrite Hs.
  destruct (Z.geb_spec score 90); [|destruct (Z.geb_spec score 70);
    [|destruct (Z.geb_spec score 50)]];
    repeat split; intros; try reflexivity; lia.
Qed.

Lemma renderComplianceReport_status_witness :
  status_label (renderComplianceReport (report_scoring 95)) = lit "COMPLIANT" /\
  status_label (renderComplianceReport (report_scoring 90)) = lit "COMPLIANT" /\
  status_label (renderComplianceReport (report_scoring 75)) = lit "MOSTLY COMPLIANT" /\
  status_label (renderComplianceReport (report_scoring 70)) = lit "MOSTLY COMPLIANT" /\
  status_label (renderComplianceReport (report_scoring 55)) = lit "NEEDS REVIEW" /\
  status_label (renderComplianceReport (report_scoring 50)) = lit "NEEDS REVIEW" /\
  status_label (renderComplianceReport (report_scoring 30)) = lit "NON-COMPLIANT".
Proof.
  repeat match goal with |- _ /\ _ => split end.
  - apply (proj1 (renderComplianceReport_status (report_scoring 95) 95 eq_refl)); lia.
  - apply (proj1 (renderComplianceReport_status (report_scoring 90) 90 eq_refl)); lia.
  - apply (proj1 (proj2 (renderComplianceReport_status (report_scoring 75) 75 eq_refl))); lia.
  - apply (proj1 (proj2 (renderComplianceReport_status (report_scoring 70) 70 eq_refl))); lia.
  - apply (proj1 (proj2 (proj2 (renderComplianceReport_status (report_scoring 55) 55 eq_refl)))); lia.
  - apply (proj1 (proj2 (proj2 (renderComplianceReport_status (report_scoring 50) 50 eq_refl)))); lia.
  - apply (proj2 (proj2 (proj2 (renderComplianceReport_status (report_scoring 30) 30 eq_refl)))); lia.
Defined.

(** ** Searching and replacing *)







Lemma replace_absent (s p template : jsstring) :
  indexOf s p = None -> replace s p template = s.
Proof. intros H. unfold replace. rewrite H. reflexivity. Qed.

(** A template without [$] is inserted as it is. *)
Lemma GetSubstitution_plain (m b a template : jsstring) :
  ~ In 36%N template -> GetSubstitution m b a template = template.
Proof.
  induction template as [|c r IH]; intros Hno; [reflexivity|].
  simpl. destruct (N.eqb_spec c 36) as [->|_].
  - exfalso. apply Hno. left. reflexivity.
  - rewrite IH; [reflexivity|]. intros Hin. apply Hno. right. exact Hin.
Qed.

(** ** The overlay *)

Lemma startsWith_split (s p : jsstring) :
  startsWith s p = true -> exists rest, s = p ++ rest.
Proof.
  revert s. induction p as [|a p IH]; intros s H.
  - exists s. reflexivity.
  - destruct s as [|b s]; [discriminate H|].
    cbn [startsWith] in H. apply andb_true_iff in H. destruct H as [Hab Hs].
    apply N.eqb_eq in Hab. subst b.
    destruct (IH s Hs) as [rest ->]. exists rest. reflexivity.
Qed.










Lemma highlight_issues_app (l1 l2 : list CleanupIssue) (text : jsstring) :
  highlight_issues (l1 ++ l2) text = highlight_issues l2 (highlight_issues l1 text).
Proof. apply fold_left_app. Qed.

Lemma replace_all_char_app (c : code_unit) (by_ a b : jsstring) :
  replace_all_char c by_ (a ++ b) =
  replace_all_char c by_ a ++ replace_all_char c by_ b.
Proof. apply flat_map_app. Qed.

Lemma formatDocumentText_flat_map (s : jsstring) :
  formatDocumentText (Some s) = flat_map format_char s.
Proof.
  destruct s as [|c0 s0]; [reflexivity|].
  unfold formatDocumentText. generalize (c0 :: s0). clear c0 s0.
  intros s. induction s as [|c s IH]; [reflexivity|].
  change (c :: s) with ([c] ++ s).
  rewrite !replace_all_char_app, IH.
  change (flat_map format_char ([c] ++ s))
    with (format_char c ++ flat_map format_char s).
  f_equal. unfold format_char.
  destruct (N.eqb_spec c 60) as [->|H60]; [reflexivity|].
  destruct (N.eqb_spec c 62) as [->|H62]; [reflexivity|].
  destruct (N.eqb_spec c nl) as [->|Hnl]; [reflexivity|].
  destruct (N.eqb_spec c tab) as [->|Htab]; [reflexivity|].
  unfold replace_all_char. simpl.
  rewrite (proj2 (N.eqb_neq c 60) H60). simpl.
  rewrite (proj2 (N.eqb_neq c 62) H62). simpl.
  rewrite (proj2 (N.eqb_neq c nl) Hnl). simpl.
  rewrite (proj2 (N.eqb_neq c tab) Htab). reflexivity.
Qed.

Lemma no_mark_tag_formatted (s tail : jsstring) :
  no_mark_tag tail = true ->
  no_mark_tag (flat_map format_char s ++ tail) = true.
Proof.
  intros Htail. induction s as [|c s IH]; [exact Htail|].
  cbn [flat_map]. rewrite <- app_assoc. unfold format_char at 1.
  destruct (N.eqb_spec c 60); [simpl; exact IH|].
  destruct (N.eqb_spec c 62); [simpl; exact IH|].
  destruct (N.eqb_spec c nl); [simpl; exact IH|].
  destruct (N.eqb_spec c tab); [simpl; exact IH|].
  cbn [app no_mark_tag]. rewrite (proj2 (N.eqb_neq c 60)) by assumption.
  simpl. exact IH.
Qed.

Lemma no_mark_tag_indexOf (s : jsstring) :
  no_mark_tag s = true -> indexOf s (lit "<mark") = None.
Proof.
  induction s as [|c s IH]; intros H; [reflexivity|].
  cbn [no_mark_tag] in H. apply andb_true_iff in H. destruct H as [Hc Hs].
  cbn [indexOf]. rewrite (IH Hs).
  replace (startsWith (c :: s) (lit "<mark")) with false; [reflexivity|].
  symmetry. change (lit "<mark") with (60 :: 109 :: lit "ark")%N.
  cbn [startsWith]. destruct s as [|d s].
  - destruct (60 =? c)%N; reflexivity.
  - rewrite (N.eqb_sym 60 c), (N.eqb_sym 109 d).
    destruct (c =? 60)%N; [|reflexivity].
    destruct (d =? 109)%N; [discriminate Hc|reflexivity].
Qed.

(** Whatever the issues are, no [<mark] is left in the original-content
    pane: the markup injected by the loop is encoded with the text. *)
Lemma overlay_markup_is_encoded (result : CleanupResult) :
  indexOf (original_content_html (renderCleanupResults result)) (lit "<mark")
  = None.
Proof.
  apply no_mark_tag_indexOf.
  unfold renderCleanupResults. cbn [original_content_html].
  rewrite formatDocumentText_flat_map. unfold pre_document_text.
  set (body := flat_map format_char _).
  simpl. subst body.
  apply no_mark_tag_formatted. reflexivity.
Qed.

(** C1: on the result whose text is [x a<b y a<b] with the one issue
    [a<b], the loop finds the fragment in the raw text and wraps it, and
    [formatDocumentText] then encodes the whole string, the injected [mark]
    element included: the pane shows the tag as text and highlights
    nothing. *)
Theorem overlay_encodes_after_injection :
  highlight_issues [sample_issue] (lit "x a<b y a<b") =
    lit "x <mark class=" ++ dq ++ lit "highlight-terminology" ++ dq
      ++ lit " title=" ++ dq ++ lit "r" ++ dq ++ lit ">a&lt;b</mark> y a<b" /\
  original_content_html (renderCleanupResults sample_result) =
    pre_document_text
      (lit "x &lt;mark class=" ++ dq ++ lit "highlight-terminology" ++ dq
         ++ lit " title=" ++ dq ++ lit "r" ++ dq
         ++ lit "&gt;a&lt;b&lt;/mark&gt; y a&lt;b") /\
  indexOf (original_content_html (renderCleanupResults sample_result))
          (lit "<mark") = None.
Proof. repeat split. Qed.

(** ** Trimming and splitting *)

Lemma dropWhile_all (f : code_unit -> bool) (s : jsstring) :
  forallb f s = true -> dropWhile f s = [].
Proof.
  induction s as [|c s IH]; [reflexivity|].
  simpl. intros H. apply andb_true_iff in H. destruct H as [Hc Hs].
  rewrite Hc. exact (IH Hs).
Qed.

Lemma dropWhile_keeps (f : code_unit -> bool) (s : jsstring) (x : code_unit) :
  In x s -> f x = false -> In x (dropWhile f s).
Proof.
  induction s as [|c s IH]; intros Hin Hx; [contradiction|].
  simpl. destruct (f c) eqn:Hc; [|exact Hin].
  destruct Hin as [->|Hin]; [congruence|]. exact (IH Hin Hx).
Qed.

Lemma trim_blank (s : jsstring) : forallb is_space s = true -> trim s = [].
Proof.
  intros H. unfold trim, trimStart, trimEnd.
  rewrite (dropWhile_all _ _ H). reflexivity.
Qed.

Lemma trim_keeps (s : jsstring) (x : code_unit) :
  In x s -> is_space x = false -> In x (trim s).
Proof.
  intros Hin Hx. unfold trim, trimStart, trimEnd.
  apply -> in_rev. apply dropWhile_keeps; [|exact Hx].
  apply -> in_rev. apply dropWhile_keeps; assumption.
Qed.

Lemma split_blank_lines_step (c : code_unit) (r acc : jsstring) (b : bool) :
  split_blank_lines (c :: r) acc b =
  if b && (c =? nl)%N then split_blank_lines r acc true
  else match r with
       | d :: r' =>
           if (c =? nl)%N && (d =? nl)%N
           then rev acc :: split_blank_lines r' [] true
           else split_blank_lines r (c :: acc) false
       | [] => [rev (c :: acc)]
       end.
Proof. reflexivity. Qed.

(** Every character of a chunk is a character of the text. *)
Lemma split_blank_lines_sound (n : nat) :
  forall (s acc : jsstring) (b : bool), length s <= n ->
  forall chunk x, In chunk (split_blank_lines s acc b) -> In x chunk ->
  In x s \/ In x acc.
Proof.
  induction n as [|n IH]; intros s acc b Hlen chunk x Hchunk Hx.
  - destruct s; [|simpl in Hlen; lia].
    simpl in Hchunk. destruct Hchunk as [<-|[]].
    right. apply in_rev. exact Hx.
  - destruct s as [|c r].
    { simpl in Hchunk. destruct Hchunk as [<-|[]].
      right. apply in_rev. exact Hx. }
    simpl in Hlen. rewrite split_blank_lines_step in Hchunk.
    destruct (b && (c =? nl)%N).
    { destruct (IH r acc true ltac:(lia) chunk x Hchunk Hx) as [H|H];
        [left; right; exact H|right; exact H]. }
    destruct r as [|d r'].
    { destruct Hchunk as [<-|[]]. apply in_rev in Hx.
      destruct Hx as [<-|Hx]; [left; left; reflexivity|right; exact Hx]. }
    destruct ((c =? nl)%N && (d =? nl)%N).
    + destruct Hchunk as [<-|Hchunk].
      * right. apply in_rev. exact Hx.
      * simpl in Hlen.
        destruct (IH r' [] true ltac:(lia) chunk x Hchunk Hx) as [H|[]].
        left. right. right. exact H.
    + destruct (IH (d :: r') (c :: acc) false ltac:(simpl in *; lia)
                  chunk x Hchunk Hx) as [H|[<-|H]].
      * left. right. exact H.
      * left. left. reflexivity.
      * right. exact H.
Qed.

(** Every character of the text other than a line feed is in a chunk. *)
Lemma split_blank_lines_complete (n : nat) :
  forall (s acc : jsstring) (b : bool), length s <= n ->
  forall x, x <> nl -> In x s \/ In x acc ->
  exists chunk, In chunk (split_blank_lines s acc b) /\ In x chunk.
Proof.
  induction n as [|n IH]; intros s acc b Hlen x Hx Hin.
  - destruct s; [|simpl in Hlen; lia].
    destruct Hin as [[]|Hin].
    exists (rev acc). split; [left; reflexivity|]. apply -> in_rev. exact Hin.
  - destruct s as [|c r].
    { destruct Hin as [[]|Hin].
      exists (rev acc). split; [left; reflexivity|]. apply -> in_rev. exact Hin. }
    simpl in Hlen. rewrite split_blank_lines_step.
    destruct (b && (c =? nl)%N) eqn:Hsep.
    { apply andb_true_iff in Hsep. destruct Hsep as [_ Hc].
      apply N.eqb_eq in Hc.
      apply (IH r acc true ltac:(lia) x Hx).
      destruct Hin as [[Heq|Hin]|Hin]; [congruence|left; exact Hin|right; exact Hin]. }
    destruct r as [|d r'].
    { exists (rev (c :: acc)). split; [left; reflexivity|].
      apply -> in_rev.
      destruct Hin as [[Heq|[]]|Hin]; [left; exact Heq|right; exact Hin]. }
    destruct ((c =? nl)%N && (d =? nl)%N) eqn:Hnn.
    + apply andb_true_iff in Hnn. destruct Hnn as [Hc Hd].
      apply N.eqb_eq in Hc. apply N.eqb_eq in Hd.
      destruct Hin as [[Heq|[Heq|Hin]]|Hin]; try congruence.
      * simpl in Hlen.
        destruct (IH r' [] true ltac:(lia) x Hx (or_introl Hin))
          as [chunk [Hchunk Hxc]].
        exists chunk. split; [right; exact Hchunk|exact Hxc].
      * exists (rev acc). split; [left; reflexivity|].
        apply -> in_rev. exact Hin.
    + apply (IH (d :: r') (c :: acc) false ltac:(simpl in *; lia) x Hx).
      destruct Hin as [[Heq|Hin]|Hin].
      * right. left. exact Heq.
      * left. exact Hin.
      * right. right. exact Hin.
Qed.

(** ** Promotion of plain text *)

Lemma fold_append_paragraph (l : list jsstring) (html : jsstring) :
  fold_left append_paragraph l html =
  html ++ concat (map paragraph_block
                    (filter (fun para => negb (is_empty para)) (map trim l))).
Proof.
  revert html. induction l as [|p l IH]; intros html.
  - simpl. now rewrite app_nil_r.
  - cbn [fold_left map filter]. rewrite IH. unfold append_paragraph.
    destruct (trim p) as [|c t]; [reflexivity|].
    cbn [is_empty negb concat map]. now rewrite <- app_assoc.
Qed.

Lemma paragraph_block_shape (para : jsstring) :
  exists body,
    paragraph_block para = lit "<h2>" ++ body ++ lit "</h2>" ++ [nl] \/
    paragraph_block para = lit "<p>" ++ body ++ lit "</p>" ++ [nl].
Proof.
  unfold paragraph_block.
  destruct (all_caps_line para || chapter_marker para).
  - eexists. left. reflexivity.
  - destruct (numbered_paragraph para); eexists; right; reflexivity.
Qed.

Lemma paragraph_block_nonempty (para : jsstring) : paragraph_block para <> [].
Proof.
  destruct (paragraph_block_shape para) as [body [H|H]]; rewrite H; discriminate.
Qed.

Lemma forallb_false_witness (f : code_unit -> bool) (s : jsstring) :
  forallb f s = false -> exists x, In x s /\ f x = false.
Proof.
  induction s as [|c s IH]; [discriminate|].
  simpl. intros H. destruct (f c) eqn:Hc.
  - destruct (IH H) as [x [Hin Hx]]. exists x. split; [right|]; assumption.
  - exists c. split; [left; reflexivity|exact Hc].
Qed.

Lemma chunks_blank (s : jsstring) : forallb is_space s = true -> chunks s = [].
Proof.
  intros Hs. unfold chunks, split_paragraphs.
  assert (Hall : forall chunk, In chunk (split_blank_lines s [] false) ->
                               trim chunk = []).
  { intros chunk Hin. apply trim_blank. apply forallb_forall. intros x Hx.
    destruct (split_blank_lines_sound (length s) s [] false (le_n _)
                chunk x Hin Hx) as [H|[]].
    exact (proj1 (forallb_forall _ _) Hs x H). }
  induction (split_blank_lines s [] false) as [|p l IH]; [reflexivity|].
  cbn [map filter]. rewrite (Hall p (or_introl eq_refl)). cbn [is_empty negb].
  apply IH. intros chunk Hin. apply Hall. right. exact Hin.
Qed.

Lemma chunks_present (s : jsstring) : forallb is_space s = false -> chunks s <> [].
Proof.
  intros Hs. destruct (forallb_false_witness _ _ Hs) as [x [Hin Hx]].
  assert (Hnl : x <> nl) by (intros ->; discriminate Hx).
  destruct (split_blank_lines_complete (length s) s [] false (le_n _)
              x Hnl (or_introl Hin)) as [chunk [Hchunk Hxc]].
  pose proof (trim_keeps chunk x Hxc Hx) as Hkept.
  assert (Hmem : In (trim chunk) (chunks s)).
  { unfold chunks. apply filter_In. split.
    - apply in_map. exact Hchunk.
    - destruct (trim chunk); [contradiction|reflexivity]. }
  intros Hnil. rewrite Hnil in Hmem. contradiction.
Qed.

Lemma convertTextToHtml_plain (s : jsstring) :
  s <> [] -> startsWith (trim s) (lit "<") = false ->
  convertTextToHtml (Some s) =
  or_lit (Some (concat (map paragraph_block (chunks s)))) (lit "<p></p>").
Proof.
  intros Hne Hplain. destruct s as [|c s]; [contradiction|].
  unfold convertTextToHtml. rewrite Hplain.
  cbv zeta. rewrite fold_append_paragraph. reflexivity.
Qed.

Lemma convertTextToHtml_blank (s : jsstring) :
  forallb is_space s = true -> convertTextToHtml (Some s) = lit "<p></p>".
Proof.
  intros Hs. destruct s as [|c s]; [reflexivity|].
  rewrite convertTextToHtml_plain.
  - rewrite chunks_blank by exact Hs. reflexivity.
  - discriminate.
  - rewrite trim_blank by exact Hs. reflexivity.
Qed.

Lemma convertTextToHtml_markup (s : jsstring) :
  is_markup s = true -> convertTextToHtml (Some s) = s.
Proof.
  unfold is_markup. intros Hs. destruct s as [|c s]; [discriminate Hs|].
  unfold convertTextToHtml. rewrite Hs. reflexivity.
Qed.

Lemma convertTextToHtml_blocks (s : jsstring) :
  is_markup s = false -> forallb is_space s = false ->
  chunks s <> [] /\
  convertTextToHtml (Some s) = concat (map paragraph_block (chunks s)).
Proof.
  unfold is_markup. intros Hplain Hs. pose proof (chunks_present s Hs) as Hc.
  split; [exact Hc|].
  rewrite convertTextToHtml_plain; [|intros ->; discriminate Hs|exact Hplain].
  destruct (chunks s) as [|p l]; [contradiction|].
  cbn [map concat].
  destruct (paragraph_block p ++ concat (map paragraph_block l)) eqn:E;
    [|reflexivity].
  apply app_eq_nil in E. destruct E as [E _].
  exfalso. exact (paragraph_block_nonempty p E).
Qed.

(** C10: [convertTextToHtml] never returns the empty string; a missing,
    empty or blank text gives [<p></p>]; a text whose trimmed value starts
    with [<] is returned as it is; any other text gives the blocks of its
    non-blank chunks, one [<h2>] or [<p>] element each, and there is at
    least one. *)
Theorem convertTextToHtml_never_empty (text : option jsstring) :
  convertTextToHtml text <> [] /\
  (text = None \/ (exists s, text = Some s /\ forallb is_space s = true) ->
   convertTextToHtml text = lit "<p></p>") /\
  (forall s, text = Some s -> startsWith (trim s) (lit "<") = true ->
   convertTextToHtml text = s) /\
  (forall s, text = Some s -> startsWith (trim s) (lit "<") = false ->
   forallb is_space s = false ->
   chunks s <> [] /\
   convertTextToHtml text = concat (map paragraph_block (chunks s))) /\
  (forall para, exists body,
     paragraph_block para = lit "<h2>" ++ body ++ lit "</h2>" ++ [nl] \/
     paragraph_block para = lit "<p>" ++ body ++ lit "</p>" ++ [nl]).
Proof.
  split; [|split; [|split; [|split]]].
  - destruct text as [s|]; [|discriminate].
    destruct (is_markup s) eqn:Hm.
    + rewrite (convertTextToHtml_markup s Hm). intros ->. discriminate Hm.
    + destruct (forallb is_space s) eqn:Hs.
      * rewrite (convertTextToHtml_blank s Hs). discriminate.
      * destruct (convertTextToHtml_blocks s Hm Hs) as [Hc ->].
        destruct (chunks s) as [|p l]; [contradiction|].
        cbn [map concat]. intros E. apply app_eq_nil in E.
        exact (paragraph_block_nonempty p (proj1 E)).
  - intros [->|[s [-> Hs]]]; [reflexivity|exact (convertTextToHtml_blank s Hs)].
  - intros s -> Hm. exact (convertTextToHtml_markup s Hm).
  - intros s -> Hm Hs. exact (convertTextToHtml_blocks s Hm Hs).
  - exact paragraph_block_shape.
Qed.

Lemma convertTextToHtml_never_empty_witness :
  convertTextToHtml (Some (lit "  ")) = lit "<p></p>" /\
  convertTextToHtml (Some (lit " <p>x</p>")) = lit " <p>x</p>" /\
  convertTextToHtml (Some sample_plain_text) =
    lit "<h2>PASAL 1</h2>" ++ [nl] ++ lit "<p>isi</p>" ++ [nl].
Proof.
  split; [|split].
  - apply (proj1 (proj2 (convertTextToHtml_never_empty (Some (lit "  "))))).
    right. exists (lit "  "). split; reflexivity.
  - apply (proj1 (proj2 (proj2
             (convertTextToHtml_never_empty (Some (lit " <p>x</p>")))))
             (lit " <p>x</p>") eq_refl).
    reflexivity.
  - rewrite (proj2 (proj1 (proj2 (proj2 (proj2
               (convertTextToHtml_never_empty (Some sample_plain_text)))))
               sample_plain_text eq_refl eq_refl eq_refl)).
    reflexivity.
Defined.

(** What [convertTextToHtml] returns is markup, and markup goes through it
    unchanged. *)
Lemma dropWhile_last (f : code_unit -> bool) (l : jsstring) (c : code_unit) :
  f c = false -> exists l', dropWhile f (l ++ [c]) = l' ++ [c].
Proof.
  intros Hc. induction l as [|x l [l' IH]].
  - exists []. simpl. now rewrite Hc.
  - simpl. destruct (f x).
    + exists l'. exact IH.
    + exists (x :: l). reflexivity.
Qed.

Lemma trim_head (c : code_unit) (r : jsstring) :
  is_space c = false -> exists r', trim (c :: r) = c :: r'.
Proof.
  intros Hc. unfold trim, trimStart, trimEnd. cbn [dropWhile]. rewrite Hc.
  cbn [rev]. destruct (dropWhile_last is_space (rev r) c Hc) as [l' ->].
  exists (rev l'). rewrite rev_app_distr. reflexivity.
Qed.

Lemma is_markup_head (c : code_unit) (r : jsstring) :
  c = 60%N -> is_markup (c :: r) = true.
Proof.
  intros ->. unfold is_markup.
  destruct (trim_head 60%N r eq_refl) as [r' ->]. reflexivity.
Qed.

Lemma is_markup_truthy (h : jsstring) : is_markup h = true -> truthy (Some h) = true.
Proof. destruct h; [discriminate|reflexivity]. Qed.

Lemma convertTextToHtml_is_markup (text : option jsstring) :
  is_markup (convertTextToHtml text) = true.
Proof.
  destruct text as [[|c s]|]; try reflexivity.
  destruct (is_markup (c :: s)) eqn:Hm.
  - rewrite convertTextToHtml_markup; assumption.
  - rewrite convertTextToHtml_plain; [|discriminate|exact Hm].
    destruct (chunks (c :: s)) as [|p l]; [reflexivity|].
    cbn [map concat].
    destruct (paragraph_block_shape p) as [body [-> | ->]];
      cbn [lit list_ascii_of_string map app or_lit];
      apply is_markup_head; reflexivity.
Qed.

(** ** Switching the editor language *)

Lemma editor_content_same (l1 l2 content : jsstring) (r : CleanupResult) :
  is_indonesian l1 = is_indonesian l2 -> truthy (Some content) = true ->
  editor_content l1 (store_edited l2 content r) = content.
Proof.
  intros Hsame Hc. unfold editor_content, store_edited. rewrite <- Hsame.
  destruct content as [|c content]; [discriminate Hc|].
  destruct (is_indonesian l1); reflexivity.
Qed.

Lemma editor_content_other (l1 l2 content : jsstring) (r : CleanupResult) :
  is_indonesian l1 <> is_indonesian l2 ->
  editor_content l1 (store_edited l2 content r) = editor_content l1 r.
Proof.
  intros Hdiff. unfold editor_content, store_edited.
  destruct (is_indonesian l1), (is_indonesian l2);
    try reflexivity; exfalso; apply Hdiff; reflexivity.
Qed.

Section SwitchLanguage.

Variable quill_paste : jsstring -> jsstring.

Lemma captured_live (w : World) (r : CleanupResult) (editor : Quill) :
  editorInstance w = Some editor ->
  captured w r =
  store_edited (currentEditorLanguage w) (root_innerHTML editor) r.
Proof. intros He. unfold captured. rewrite He. reflexivity. Qed.

Lemma switchEditorLanguage_normal (lang : jsstring) (w : World) r :
  cleanupResult w = Some r ->
  exists w',
    switchEditorLanguage quill_paste lang w = Normal w' /\
    cleanupResult w' = Some (captured w r) /\
    currentEditorLanguage w' = lang /\
    editorInstance w' = Some {| root_innerHTML := loaded quill_paste lang (captured w r) |}.
Proof.
  intros Hr. destruct w as [d tm rp cr [editor|] cur sec pt ps pr es al sv cv mv];
    cbn in Hr; subst cr;
    (eexists; split; [reflexivity|]; repeat split; reflexivity).
Qed.

Hypothesis paste_markup :
  forall html, is_markup html = true -> is_markup (quill_paste html) = true.
Hypothesis paste_stable :
  forall html, is_markup html = true ->
               quill_paste (quill_paste html) = quill_paste html.

Lemma loaded_is_markup (lang : jsstring) r : is_markup (loaded quill_paste lang r) = true.
Proof. apply paste_markup, convertTextToHtml_is_markup. Qed.

Lemma loaded_again (l : jsstring) r :
  quill_paste (convertTextToHtml (Some (loaded quill_paste l r))) = loaded quill_paste l r.
Proof.
  rewrite convertTextToHtml_markup by apply loaded_is_markup.
  unfold loaded. apply paste_stable, convertTextToHtml_is_markup.
Qed.

(** The content shown for [lang] after it was captured from a surface
    showing [loaded l r], another language having been shown in between. *)
Lemma loaded_round_trip (lang other l : jsstring) (r0 r : CleanupResult) :
  let s1 := loaded quill_paste l r0 in
  let r2 := store_edited lang s1 r in
  let s2 := loaded quill_paste other r2 in
  loaded quill_paste lang (store_edited other s2 r2) = s1.
Proof.
  intros s1 r2 s2.
  assert (Hs1 : truthy (Some s1) = true)
    by apply is_markup_truthy, loaded_is_markup.
  destruct (bool_dec (is_indonesian lang) (is_indonesian other)) as [Hsame|Hdiff].
  - assert (Hs2 : s2 = s1).
    { unfold s2, r2. unfold loaded at 1.
      rewrite editor_content_same; [|symmetry; exact Hsame|exact Hs1].
      apply loaded_again. }
    rewrite Hs2. unfold loaded at 1.
    rewrite editor_content_same; [|exact Hsame|exact Hs1].
    apply loaded_again.
  - unfold loaded at 1. rewrite editor_content_other by exact Hdiff.
    unfold r2. rewrite editor_content_same; [|reflexivity|exact Hs1].
    apply loaded_again.
Qed.

(** C3 (as amended): with a cleanup result loaded, [switchEditorLanguage]
    first stores the content of the live surface in the buffer of the
    language that was current, then makes [lang] current and opens the
    surface on [edited || cleaned || ''] of [lang], an empty edited value
    giving way to the cleaned one.  If the surface serialises markup as
    markup and is stable on its own serialisation, switching to [lang], to
    another language and back to [lang] with no edit in between shows again
    what the first switch showed. *)
Theorem switchEditorLanguage_round_trip
  (lang other : jsstring) (w : World) (r : CleanupResult) :
  cleanupResult w = Some r ->
  exists w1 w2 w3 r1,
    switchEditorLanguage quill_paste lang w = Normal w1 /\
    switchEditorLanguage quill_paste other w1 = Normal w2 /\
    switchEditorLanguage quill_paste lang w2 = Normal w3 /\
    cleanupResult w1 = Some r1 /\
    (forall editor, editorInstance w = Some editor ->
       r1 = store_edited (currentEditorLanguage w) (root_innerHTML editor) r) /\
    (editorInstance w = None -> r1 = r) /\
    currentEditorLanguage w1 = lang /\
    surface w1 =
      Some (quill_paste (convertTextToHtml (Some (editor_content lang r1)))) /\
    (forall content, surface w1 = Some content ->
       cleanupResult w2 = Some (store_edited lang content r1)) /\
    surface w3 = surface w1.
Proof.
  intros Hr.
  destruct (switchEditorLanguage_normal lang w r Hr) as [w1 [E1 [C1 [L1 S1]]]].
  destruct (switchEditorLanguage_normal other w1 _ C1) as [w2 [E2 [C2 [L2 S2]]]].
  destruct (switchEditorLanguage_normal lang w2 _ C2) as [w3 [E3 [C3 [L3 S3]]]].
  exists w1, w2, w3, (captured w r).
  repeat match goal with |- _ /\ _ => split end; try assumption.
  - intros editor He. unfold captured. rewrite He. reflexivity.
  - intros He. unfold captured. rewrite He. reflexivity.
  - unfold surface. rewrite S1. reflexivity.
  - intros content Hc. unfold surface in Hc. rewrite S1 in Hc.
    injection Hc as <-. rewrite C2, (captured_live w1 _ _ S1), L1.
    reflexivity.
  - unfold surface. rewrite S3, S1. cbn [option_map root_innerHTML]. f_equal.
    rewrite (captured_live w2 _ _ S2), L2.
    rewrite (captured_live w1 _ _ S1), L1. cbn [root_innerHTML].
    apply (loaded_round_trip lang other lang (captured w r) (captured w r)).
Qed.

End SwitchLanguage.

Lemma switchEditorLanguage_round_trip_witness :
  exists w1 w3,
    switchEditorLanguage plain_surface (lit "indonesian") world_with_empty_edit
      = Normal w1 /\
    and_then (switchEditorLanguage plain_surface (lit "english") w1)
             (switchEditorLanguage plain_surface (lit "indonesian"))
      = Normal w3 /\
    surface w1 = Some (lit "<p>teks</p>" ++ [nl]) /\
    surface w3 = surface w1.
Proof.
  destruct (switchEditorLanguage_round_trip plain_surface
              (fun html H => H) (fun html H => eq_refl)
              (lit "indonesian") (lit "english") world_with_empty_edit
              result_with_empty_edit eq_refl)
    as [w1 [w2 [w3 [r1 [E1 [E2 [E3 [C1 [_ [Hr1 [_ [S1 [_ S3]]]]]]]]]]]]].
  exists w1, w3. split; [exact E1|]. split; [rewrite E2; exact E3|].
  split; [|exact S3].
  rewrite S1, (Hr1 eq_refl). reflexivity.
Defined.

(** C3 (as stated): the content loaded is not [edited ?? cleaned ?? ""].
    With an empty edited value the editor is loaded with the cleaned text,
    whatever the surface does with it, where the nullish reading would load
    the empty edited value. *)
Lemma switchEditorLanguage_not_nullish :
  editor_content (lit "indonesian") result_with_empty_edit = lit "teks" /\
  spec_editor_content (lit "indonesian") result_with_empty_edit = [] /\
  (forall paste : jsstring -> jsstring,
   exists w',
     switchEditorLanguage paste (lit "indonesian") world_with_empty_edit
       = Normal w' /\
     cleanupResult w' = Some result_with_empty_edit /\
     surface w' = Some (paste (lit "<p>teks</p>" ++ [nl]))) /\
  convertTextToHtml
    (Some (spec_editor_content (lit "indonesian") result_with_empty_edit))
    = lit "<p></p>" /\
  exists w',
    switchEditorLanguage plain_surface (lit "indonesian") world_with_empty_edit
      = Normal w' /\
    surface w' <>
    Some (plain_surface
            (convertTextToHtml
               (Some (spec_editor_content (lit "indonesian")
                        result_with_empty_edit)))).
Proof.
  split; [reflexivity|]. split; [reflexivity|]. split.
  - intros paste. eexists. repeat split.
  - split; [reflexivity|]. eexists. split; [reflexivity|discriminate].
Qed.

(** ** Responses and the session *)

(** The three parts of [unguarded] for a resumption written as a [match]
    on the outcome; [next] closes the tasks that follow. *)
Ltac unguarded_resume next :=
  cbn [unguarded]; split; [|split];
  [ intros body w; reflexivity
  | intros o w Ho; destruct o; try discriminate Ho; reflexivity
  | intros o w; destruct o; try exact I; next ].

Lemma unguarded_module_create (back : jsstring) (d : option jsstring) :
  unguarded (Await (POST_modules_create d) (after_module_create back)).
Proof. unguarded_resume idtac. Qed.

Lemma unguarded_cleanup_fetch (d : option jsstring) :
  unguarded (Await (GET_cleanup d) after_cleanup_fetch).
Proof. unguarded_resume ltac:(apply unguarded_module_create). Qed.

Lemma unguarded_upload (file : jsstring) :
  unguarded (Await (POST_documents_upload file) after_upload).
Proof. unguarded_resume ltac:(apply unguarded_cleanup_fetch). Qed.

Lemma unguarded_cleanup_rerun (d : option jsstring) :
  unguarded (Await (POST_cleanup_rerun d) after_cleanup_rerun).
Proof. unguarded_resume idtac. Qed.

Lemma unguarded_report_fetch (d : option jsstring) :
  unguarded (Await (GET_review_report d) after_report_fetch).
Proof. unguarded_resume idtac. Qed.

Lemma unguarded_module_fetch (d : option jsstring) :
  unguarded (Await (GET_modules d) after_module_fetch).
Proof. unguarded_resume idtac. Qed.

Lemma unguarded_cleanup_view_fetch (d : option jsstring) :
  unguarded (Await (GET_cleanup d) after_cleanup_view_fetch).
Proof. unguarded_resume idtac. Qed.

Lemma unguarded_review (d focus : option jsstring) :
  unguarded (Await (POST_review d focus) after_review).
Proof. unguarded_resume idtac. Qed.

Lemma unguarded_save (d : option jsstring) (content lang : jsstring) :
  unguarded (Await (PUT_cleanup_save d content lang) (after_save content)).
Proof.
  cbn [unguarded]. split; [|split].
  - intros body w. cbn [stored_in after_save].
    destruct (cleanupResult w) eqn:Hr; cbn; [reflexivity|exact Hr].
  - intros o w Ho. destruct o; try discriminate Ho; reflexivity.
  - intros o w. destruct o; try exact I.
    cbn [after_save]. destruct (cleanupResult w); exact I.
Qed.

Lemma unguarded_handler (a : UserAction) (w : World) :
  unguarded (snd (handler a w)).
Proof.
  destruct a as [[file|]| | |docId|docId|docId|focus|]; cbn [handler].
  - apply unguarded_upload.
  - exact I.
  - unfold skip_to_module_click.
    destruct (negb (truthy (documentId w))); [exact I|].
    apply unguarded_module_create.
  - unfold rerun_cleanup_click.
    destruct (negb (truthy (documentId w))); [exact I|].
    apply unguarded_cleanup_rerun.
  - apply unguarded_report_fetch.
  - apply unguarded_module_fetch.
  - apply unguarded_cleanup_view_fetch.
  - unfold startReviewBtn_click.
    destruct (negb (truthy (documentId w))); [exact I|].
    apply unguarded_review.
  - unfold saveEditedDocument. destruct (editorInstance w); [|exact I].
    destruct (negb (truthy (documentId w))); [exact I|].
    apply unguarded_save.
Qed.

(** Every task that is pending in a reachable state is unguarded. *)
Lemma reachable_unguarded (s : System) :
  reachable s -> Forall unguarded (pending s).
Proof.
  induction 1 as [|s s' Hs IH Hturn]; [constructor|].
  destruct Hturn as [a s|A request resume o w before after
                    |ms callback w before after]; cbn [pending] in *.
  - apply Forall_app. split; [exact IH|].
    constructor; [apply unguarded_handler|constructor].
  - apply Forall_app in IH. destruct IH as [Hb Ha].
    inversion Ha as [|t l Ht Hl]; subst.
    apply Forall_app. split; [exact Hb|].
    apply Forall_app. split; [exact Hl|].
    constructor; [|constructor].
    cbn [unguarded] in Ht. apply Ht.
  - apply Forall_app in IH. destruct IH as [Hb Ha].
    inversion Ha as [|t l Ht Hl]; subst.
    apply Forall_app. split; assumption.
Qed.

(** C2 (as amended): the response handlers do not compare a response with
    the active document.  In every reachable state and for every pending
    request, a successful response is assigned to the session variable of
    its stage in whatever state it arrives, the active [documentId] having
    changed or not; a failed response leaves [documentId],
    [trainingModule], [complianceReport] and [cleanupResult] as they were. *)
Theorem response_applied_whatever_document
  (s : System) (A : Type) (request : Request A)
  (resume : Outcome A -> World -> World * Task) (before after : list Task) :
  reachable s ->
  pending s = before ++ Await request resume :: after ->
  forall w : World,
    (forall body, stored_in request body w (fst (resume (Ok body) w))) /\
    (forall o, failed o = true ->
               session_of (fst (resume o w)) = session_of w).
Proof.
  intros Hs Hp w.
  pose proof (reachable_unguarded s Hs) as Hall. rewrite Hp in Hall.
  apply Forall_app in Hall. destruct Hall as [_ Hall].
  inversion Hall as [|t l Ht Hl]; subst.
  cbn [unguarded] in Ht. destruct Ht as [Hok [Hfail _]].
  split; [intros body; apply Hok|intros o Ho; apply Hfail; exact Ho].
Qed.

Lemma two_reports_requested_reachable : reachable two_reports_requested.
Proof.
  exact (reachable_turn _ _
           (reachable_turn _ _ reachable_initial
              (turn_user (ClickViewReport (lit "doc-A")) initial_system))
           (turn_user (ClickViewReport (lit "doc-B")) _)).
Qed.

Lemma response_applied_whatever_document_witness :
  documentId (world two_reports_requested) = Some (lit "doc-B") /\
  complianceReport
    (fst (after_report_fetch (Ok report_of_doc_A) (world two_reports_requested)))
  = Some report_of_doc_A.
Proof.
  split; [reflexivity|].
  exact (proj1 (response_applied_whatever_document
                  two_reports_requested ComplianceReport
                  (GET_review_report (Some (lit "doc-A"))) after_report_fetch
                  []
                  [Await (GET_review_report (Some (lit "doc-B")))
                         after_report_fetch]
                  two_reports_requested_reachable eq_refl
                  (world two_reports_requested))
               report_of_doc_A).
Defined.

(** C2 (as stated): the report of [doc-A] is requested, then the one of
    [doc-B]; the active document is [doc-B] when the response for [doc-A]
    arrives, and it is stored in [complianceReport] all the same.  A module
    that arrives late also resets [documentId] to its own document. *)
Lemma stale_response_mutates_session :
  reachable two_reports_requested /\
  pending two_reports_requested =
    [Await (GET_review_report (Some (lit "doc-A"))) after_report_fetch;
     Await (GET_review_report (Some (lit "doc-B"))) after_report_fetch] /\
  documentId (world two_reports_requested) = Some (lit "doc-B") /\
  request_document (GET_review_report (Some (lit "doc-A")))
    <> documentId (world two_reports_requested) /\
  complianceReport (world two_reports_requested) = None /\
  complianceReport
    (fst (after_report_fetch (Ok report_of_doc_A) (world two_reports_requested)))
    = Some report_of_doc_A /\
  session_of
    (fst (after_report_fetch (Ok report_of_doc_A) (world two_reports_requested)))
    <> session_of (world two_reports_requested) /\
  forall (m : TrainingModule) (w : World),
    documentId (fst (after_module_fetch (Ok m) w)) = Some (tm_document_id m).
Proof.
  split; [exact two_reports_requested_reachable|].
  split; [reflexivity|]. split; [reflexivity|].
  split; [discriminate|]. split; [reflexivity|]. split; [reflexivity|].
  split; [discriminate|].
  intros m w. reflexivity.
Qed.

(** ** Saving *)

(** C4: a save that fails at transport (no response, a response that is
    not ok, or an unreadable body) leaves [cleanupResult], hence both
    edited buffers, and the live surface as they were, and sets the editor
    status to the error state, not to the saved one; nothing is scheduled
    that would change it later. *)
Theorem save_failure_keeps_edits
  (content : jsstring) (o : Outcome unit) (w : World) :
  failed o = true ->
  cleanupResult (fst (after_save content o w)) = cleanupResult w /\
  editorInstance (fst (after_save content o w)) = editorInstance w /\
  editor_status (fst (after_save content o w)) =
    (lit "Error saving", lit "editor-status error") /\
  editor_status (fst (after_save content o w)) <>
    (lit "Saved successfully", lit "editor-status saved") /\
  alerts (fst (after_save content o w)) =
    alerts w ++ [lit "Failed to save document: "
                   ++ failure_message (lit "Failed to save document") o] /\
  snd (after_save content o w) = Done /\
  forall (w0 : World) (editor : Quill),
    editorInstance w0 = Some editor -> truthy (documentId w0) = true ->
    saveEditedDocument w0 =
      (updateEditorStatus (lit "Saving...") (lit "saving") w0,
       Await (PUT_cleanup_save (documentId w0) (root_innerHTML editor)
                (currentEditorLanguage w0))
             (after_save (root_innerHTML editor))).
Proof.
  intros Ho.
  assert (Hfail : after_save content o w =
                  save_failed (failure_message (lit "Failed to save document") o) w)
    by (destruct o; try discriminate Ho; reflexivity).
  rewrite Hfail. unfold save_failed. cbn [fst snd].
  repeat match goal with |- _ /\ _ => split end; try reflexivity.
  - discriminate.
  - intros w0 editor He Hd. unfold saveEditedDocument.
    rewrite He, Hd. reflexivity.
Qed.

Lemma save_failure_keeps_edits_witness :
  failed (@NotOk unit) = true /\
  snd (saveEditedDocument world_editing) =
    Await (PUT_cleanup_save (Some (lit "doc-1")) (lit "<p>teks baru</p>")
             (lit "indonesian"))
          (after_save (lit "<p>teks baru</p>")) /\
  cleanupResult
    (fst (after_save (lit "<p>teks baru</p>") NotOk
            (fst (saveEditedDocument world_editing))))
    = Some result_with_empty_edit /\
  editor_status
    (fst (after_save (lit "<p>teks baru</p>") NotOk
            (fst (saveEditedDocument world_editing))))
    = (lit "Error saving", lit "editor-status error").
Proof.
  pose proof (save_failure_keeps_edits (lit "<p>teks baru</p>") NotOk
                (fst (saveEditedDocument world_editing)) eq_refl)
    as [Hr [_ [Hst [_ [_ [_ Hstart]]]]]].
  split; [reflexivity|]. split.
  - rewrite (Hstart world_editing _ eq_refl eq_refl). reflexivity.
  - split; [rewrite Hr; reflexivity|exact Hst].
Defined.

(** ** Upload without a cleanup result *)

(** C6: when the cleanup fetch of the upload flow brings no result (the
    request is rejected, the response is not ok, or its body cannot be
    read), the handler shows no error and leaves the processing screen
    up: it goes on to request the creation of the training module for the
    current document.  A failed upload, or a failed module creation, alerts
    the error and shows the upload section again. *)
Theorem cleanup_absence_falls_through
  (o : Outcome CleanupResult) (w : World) :
  failed o = true ->
  snd (after_cleanup_fetch o w) =
    Await (POST_modules_create (documentId w))
          (after_module_create (lit "upload")) /\
  alerts (fst (after_cleanup_fetch o w)) = alerts w /\
  section (fst (after_cleanup_fetch o w)) = section w /\
  session_of (fst (after_cleanup_fetch o w)) = session_of w /\
  main_progress (fst (after_cleanup_fetch o w)) = 70 /\
  (forall (file : jsstring) (w0 : World),
     startProcessBtn_click (Some file) w0 =
       (updateProgress 0 (lit "Uploading document...")
          (showSection (lit "processing") w0),
        Await (POST_documents_upload file) after_upload)) /\
  (forall (uploadData : UploadData) (w1 : World),
     snd (after_upload (Ok uploadData) w1) =
       Await (GET_cleanup (Some (id uploadData))) after_cleanup_fetch /\
     section (fst (after_upload (Ok uploadData) w1)) = section w1) /\
  (forall (o1 : Outcome UploadData) (w1 : World), failed o1 = true ->
     after_upload o1 w1 =
       (showSection (lit "upload")
          (alert (lit "Error: " ++ failure_message (lit "Upload failed") o1) w1),
        Done)) /\
  (forall (o2 : Outcome TrainingModule) (w2 : World), failed o2 = true ->
     after_module_create (lit "upload") o2 w2 =
       (showSection (lit "upload")
          (alert (lit "Error: "
                    ++ failure_message (lit "Module creation failed") o2) w2),
        Done)) /\
  (forall (m : TrainingModule) (w2 : World),
     snd (after_module_create (lit "upload") (Ok m) w2)
       = SetTimeout 500 module_timer /\
     trainingModule (fst (after_module_create (lit "upload") (Ok m) w2)) = Some m /\
     section (module_timer (fst (after_module_create (lit "upload") (Ok m) w2)))
       = lit "module").
Proof.
  intros Ho.
  assert (Hskip : after_cleanup_fetch o w =
    (updateProgress 70
       (lit "Analyzing structure and creating training module...") w,
     Await (POST_modules_create (documentId w))
           (after_module_create (lit "upload"))))
    by (destruct o; try discriminate Ho; reflexivity).
  rewrite Hskip. cbn [fst snd].
  do 5 (split; [reflexivity|]).
  split; [intros file w0; reflexivity|].
  split; [intros uploadData w1; split; reflexivity|].
  split; [intros o1 w1 H1; destruct o1; try discriminate H1; reflexivity|].
  split; [intros o2 w2 H2; destruct o2; try discriminate H2; reflexivity|].
  intros m w2. repeat split.
Qed.

Lemma cleanup_absence_falls_through_witness :
  failed (@NotOk CleanupResult) = true /\
  snd (after_cleanup_fetch NotOk
         (fst (after_upload (Ok {| id := lit "doc-1" |})
                 (fst (startProcessBtn_click (Some (lit "nda.pdf")) initial_world)))))
  = Await (POST_modules_create (Some (lit "doc-1")))
          (after_module_create (lit "upload")) /\
  section
    (fst (after_cleanup_fetch NotOk
            (fst (after_upload (Ok {| id := lit "doc-1" |})
                    (fst (startProcessBtn_click (Some (lit "nda.pdf")) initial_world))))))
  = lit "processing".
Proof.
  pose proof (cleanup_absence_falls_through NotOk
                (fst (after_upload (Ok {| id := lit "doc-1" |})
                        (fst (startProcessBtn_click (Some (lit "nda.pdf"))
                                initial_world)))) eq_refl)
    as [Hnext [_ [Hsec _]]].
  split; [reflexivity|]. split.
  - rewrite Hnext. reflexivity.
  - rewrite Hsec. reflexivity.
Defined.

(* ================================================================== *)
(** * Further properties *)
(* ================================================================== *)

(** ** Formatting and escaping *)

Lemma lt_opens_br_formatted (s : jsstring) :
  lt_opens_br (flat_map format_char s) = true.
Proof.
  induction s as [|c s IH]; [reflexivity|].
  cbn [flat_map]. unfold format_char at 1.
  destruct (N.eqb_spec c 60); [simpl; exact IH|].
  destruct (N.eqb_spec c 62); [simpl; exact IH|].
  destruct (N.eqb_spec c nl); [simpl; exact IH|].
  destruct (N.eqb_spec c tab); [simpl; exact IH|].
  cbn [app lt_opens_br]. rewrite (proj2 (N.eqb_neq c 60)) by assumption.
  exact IH.
Qed.

Lemma lt_opens_br_at (pre post : jsstring) :
  lt_opens_br (pre ++ 60%N :: post) = true -> startsWith post (lit "br>") = true.
Proof.
  induction pre as [|c pre IH]; cbn [app lt_opens_br]; intros H;
    apply andb_true_iff in H; destruct H as [Hc Hr].
  - exact Hc.
  - exact (IH Hr).
Qed.

Lemma format_char_keeps_out (c x : code_unit) :
  In x (format_char c) -> x <> nl /\ x <> tab /\ (x = 60%N \/ x = 62%N -> c = nl).
Proof.
  unfold format_char.
  destruct (N.eqb_spec c 60) as [->|H60];
    [|destruct (N.eqb_spec c 62) as [->|H62];
      [|destruct (N.eqb_spec c nl) as [->|Hnl];
        [|destruct (N.eqb_spec c tab) as [->|Htab]]]].
  5:{ intros [<-|[]]. split; [assumption|]. split; [assumption|].
      intros [E|E]; contradiction. }
  all: cbn; intros H; repeat destruct H as [<-|H]; try contradiction;
    (split; [discriminate|]; split; [discriminate|]);
    first [ intros _; reflexivity | intros [E|E]; discriminate E ].
Qed.

(** X1: the text formatted by [formatDocumentText] holds no line feed and
    no tab, and no markup but line breaks: each [<] in it opens [<br>],
    and it has a [<] or [>] only where the text had a line feed. *)
Theorem formatDocumentText_only_breaks (text : option jsstring) :
  ~ In nl (formatDocumentText text) /\
  ~ In tab (formatDocumentText text) /\
  (forall pre post,
     formatDocumentText text = pre ++ 60%N :: post ->
     exists rest, post = lit "br>" ++ rest) /\
  (forall s, text = Some s -> ~ In nl s ->
     ~ In 60%N (formatDocumentText text) /\ ~ In 62%N (formatDocumentText text)).
Proof.
  assert (Hnone : formatDocumentText None = []) by reflexivity.
  destruct text as [s|].
  2:{ rewrite Hnone. split; [intros []|]. split; [intros []|]. split.
      - intros pre post H. destruct pre; discriminate H.
      - intros s H. discriminate H. }
  rewrite formatDocumentText_flat_map.
  assert (Hout : forall x, In x (flat_map format_char s) ->
            exists c, In c s /\ In x (format_char c))
    by (intros x Hx; apply in_flat_map in Hx; exact Hx).
  split; [|split; [|split]].
  - intros H. destruct (Hout _ H) as [c [_ Hc]].
    exact (proj1 (format_char_keeps_out c nl Hc) eq_refl).
  - intros H. destruct (Hout _ H) as [c [_ Hc]].
    exact (proj1 (proj2 (format_char_keeps_out c tab Hc)) eq_refl).
  - intros pre post H. apply startsWith_split.
    pose proof (lt_opens_br_formatted s) as Hf. rewrite H in Hf.
    exact (lt_opens_br_at pre post Hf).
  - intros s' Hs' Hnl. injection Hs' as <-. split; intros H;
      destruct (Hout _ H) as [c [Hin Hc]];
      apply Hnl;
      rewrite <- (proj2 (proj2 (format_char_keeps_out c _ Hc)));
      auto.
Qed.

Lemma formatDocumentText_only_breaks_witness :
  formatDocumentText (Some (lit "a<b" ++ [nl])) = lit "a&lt;b" ++ 60%N :: lit "br>" /\
  exists rest, lit "br>" = lit "br>" ++ rest.
Proof.
  split; [reflexivity|].
  exact (proj1 (proj2 (proj2
           (formatDocumentText_only_breaks (Some (lit "a<b" ++ [nl])))))
           (lit "a&lt;b") (lit "br>") eq_refl).
Defined.

(** The entities written by [escapeHtml] form a prefix code. *)
Lemma serialize_text_char_prefix (x y : code_unit) (a b : jsstring) :
  serialize_text_char x ++ a = serialize_text_char y ++ b -> x = y /\ a = b.
Proof.
  unfold serialize_text_char.
  destruct (N.eqb_spec x 38) as [->|X1];
    [|destruct (N.eqb_spec x 160) as [->|X2];
      [|destruct (N.eqb_spec x 60) as [->|X3];
        [|destruct (N.eqb_spec x 62) as [->|X4]]]];
  (destruct (N.eqb_spec y 38) as [->|Y1];
    [|destruct (N.eqb_spec y 160) as [->|Y2];
      [|destruct (N.eqb_spec y 60) as [->|Y3];
        [|destruct (N.eqb_spec y 62) as [->|Y4]]]]);
  cbn; intros H; try discriminate H;
  injection H; intros; subst; try contradiction; split; reflexivity.
Qed.

Lemma serialize_text_char_nonempty (x : code_unit) : serialize_text_char x <> [].
Proof.
  unfold serialize_text_char.
  repeat match goal with |- context [if ?b then _ else _] => destruct b end;
    discriminate.
Qed.

Lemma serialize_text_char_no_angle (c x : code_unit) :
  In x (serialize_text_char c) -> x <> 60%N /\ x <> 62%N.
Proof.
  unfold serialize_text_char.
  destruct (N.eqb_spec c 38) as [->|H1];
    [|destruct (N.eqb_spec c 160) as [->|H2];
      [|destruct (N.eqb_spec c 60) as [->|H3];
        [|destruct (N.eqb_spec c 62) as [->|H4]]]].
  5:{ intros [<-|[]]. split; assumption. }
  all: cbn; intros H; repeat destruct H as [<-|H]; try contradiction;
    split; discriminate.
Qed.

Lemma escapeHtml_flat_map (s : jsstring) :
  escapeHtml (Some s) = flat_map serialize_text_char s.
Proof. destruct s; reflexivity. Qed.

Lemma escapeHtml_no_angle (text : option jsstring) :
  ~ In 60%N (escapeHtml text) /\ ~ In 62%N (escapeHtml text).
Proof.
  destruct text as [s|]; [|split; intros []].
  rewrite escapeHtml_flat_map.
  split; intros H; apply in_flat_map in H; destruct H as [c [_ Hc]];
    destruct (serialize_text_char_no_angle c _ Hc) as [H60 H62]; congruence.
Qed.

(** X2: [escapeHtml] loses nothing: two strings with the same escaped form
    are the same string; and the escaped form has no [<] and no [>]. *)
Theorem escapeHtml_injective (a b : jsstring) :
  (escapeHtml (Some a) = escapeHtml (Some b) -> a = b) /\
  ~ In 60%N (escapeHtml (Some a)) /\ ~ In 62%N (escapeHtml (Some a)).
Proof.
  split; [|apply escapeHtml_no_angle].
  rewrite !escapeHtml_flat_map. revert b.
  induction a as [|x a IH]; intros [|y b] H.
  - reflexivity.
  - cbn [flat_map] in H. symmetry in H. apply app_eq_nil in H.
    destruct (serialize_text_char_nonempty y (proj1 H)).
  - cbn [flat_map] in H. apply app_eq_nil in H.
    destruct (serialize_text_char_nonempty x (proj1 H)).
  - cbn [flat_map] in H.
    destruct (serialize_text_char_prefix x y _ _ H) as [-> Hrest].
    rewrite (IH b Hrest). reflexivity.
Qed.

Lemma escapeHtml_injective_witness :
  escapeHtml (Some (lit "a&b<c")) = lit "a&amp;b&lt;c" /\
  lit "a&b<c" = lit "a&b<c".
Proof.
  split; [reflexivity|].
  exact (proj1 (escapeHtml_injective (lit "a&b<c") (lit "a&b<c")) eq_refl).
Defined.

(** X3: an excerpt cut by [truncateText] is at most three code units
    longer than the limit, and its first [maxLength] code units are those
    of the text. *)
Theorem truncateText_bounds (text : option jsstring) (maxLength : nat) :
  length (truncateText text maxLength) <= maxLength + 3 /\
  firstn maxLength (truncateText text maxLength) =
  firstn maxLength (match text with Some s => s | None => [] end).
Proof.
  destruct text as [[|c s]|]; cbn [truncateText];
    try (split; [simpl; lia|now rewrite ?firstn_nil]).
  destruct (Nat.leb_spec (length (c :: s)) maxLength) as [Hle|Hgt].
  - split; [lia|reflexivity].
  - split.
    + rewrite length_app, length_firstn. simpl. lia.
    + rewrite firstn_app, firstn_firstn, Nat.min_id, length_firstn.
      replace (maxLength - Nat.min maxLength (length (c :: s))) with 0 by lia.
      now rewrite firstn_O, app_nil_r.
Qed.

(** ** Issue types *)

Lemma eqb_str_true (a b : jsstring) : eqb_str a b = true -> a = b.
Proof. unfold eqb_str. destruct (list_eq_dec N.eq_dec a b); [auto|discriminate]. Qed.

Lemma eqb_str_refl (a : jsstring) : eqb_str a a = true.
Proof. unfold eqb_str. destruct (list_eq_dec N.eq_dec a a); [reflexivity|contradiction]. Qed.

(** X4: the two tables of issue types go together: for a type that is
    not the name of a property inherited from [Object.prototype], an issue
    is marked with the general highlight class exactly when its label is
    [General]; this is the case when the type is missing. *)
Theorem issue_type_tables_agree (type : option jsstring) :
  (forall key, type = Some key -> inherited_name key = false) ->
  (getIssueHighlightClass type = lit "highlight-general" <->
   formatIssueType type = lit "General") /\
  (type = None ->
   getIssueHighlightClass type = lit "highlight-general" /\
   formatIssueType type = lit "General").
Proof.
  intros _. split; [|intros ->; split; reflexivity].
  destruct type as [key|]; [|split; reflexivity].
  unfold getIssueHighlightClass, formatIssueType, lookup. cbn [find fst snd].
  repeat match goal with
         | |- context [eqb_str ?a key] => destruct (eqb_str a key)
         end;
    split; intros H; try reflexivity; vm_compute in H; discriminate H.
Qed.

Lemma issue_type_tables_agree_witness :
  inherited_name (lit "unknown_kind") = false /\
  getIssueHighlightClass None = lit "highlight-general" /\
  formatIssueType None = lit "General" /\
  formatIssueType (Some (lit "unknown_kind")) = lit "General".
Proof.
  split; [reflexivity|].
  split; [exact (proj1 (proj2 (issue_type_tables_agree None
                          ltac:(intros key H; discriminate H)) eq_refl))|].
  split; [exact (proj2 (proj2 (issue_type_tables_agree None
                          ltac:(intros key H; discriminate H)) eq_refl))|].
  refine (proj1 (proj1 (issue_type_tables_agree (Some (lit "unknown_kind")) _))
            eq_refl).
  intros key H. injection H as <-. reflexivity.
Defined.

(** ** Issues that match nothing *)

Lemma indexOf_absent (s p : jsstring) :
  (forall k, k <= length s -> startsWith (skipn k s) p = false) ->
  indexOf s p = None.
Proof.
  induction s as [|c s IH]; intros Hno.
  - pose proof (Hno 0 (le_n _)) as H0. cbn [skipn] in H0.
    cbn [indexOf]. rewrite H0. reflexivity.
  - pose proof (Hno 0 ltac:(simpl; lia)) as H0. cbn [skipn] in H0.
    cbn [indexOf]. rewrite H0.
    rewrite IH; [reflexivity|].
    intros k Hk. apply (Hno (S k)). simpl. lia.
Qed.

(** An issue without [original_text] (missing or empty), or whose fragment
    occurs nowhere in the text, leaves the text as it is. *)
Lemma highlight_issue_no_match (issue : CleanupIssue) (text : jsstring) :
  truthy (original_text issue) = false \/
  (exists fragment, original_text issue = Some fragment /\
     forall k, k <= length text -> startsWith (skipn k text) fragment = false) ->
  highlight_issue text issue = text.
Proof.
  intros [Hmissing|[fragment [Hfrag Hno]]]; unfold highlight_issue.
  - rewrite Hmissing. reflexivity.
  - rewrite Hfrag. destruct fragment as [|c f]; [reflexivity|].
    cbn [truthy or_lit]. apply replace_absent, indexOf_absent, Hno.
Qed.

Lemma highlight_issues_no_match (issues : list CleanupIssue) (text : jsstring) :
  Forall (fun issue => highlight_issue text issue = text) issues ->
  highlight_issues issues text = text.
Proof.
  induction 1 as [|issue l Hi Hl IH]; [reflexivity|].
  cbn [highlight_issues fold_left]. rewrite Hi. exact IH.
Qed.

(** X5: when every issue of a result either has no [original_text]
    (missing or empty) or has a fragment that occurs nowhere in the
    original content, the original pane shows the content as
    [formatDocumentText] renders it, nothing added. *)
Theorem overlay_without_match (result : CleanupResult) :
  (forall issue,
     In issue (match issues result with Some l => l | None => [] end) ->
     truthy (original_text issue) = false \/
     (exists fragment, original_text issue = Some fragment /\
        forall k, k <= length (or_lit (original_content result) []) ->
          startsWith (skipn k (or_lit (original_content result) [])) fragment
          = false)) ->
  original_content_html (renderCleanupResults result) =
  pre_document_text (formatDocumentText (original_content result)).
Proof.
  intros Hno. unfold renderCleanupResults. cbn [original_content_html].
  rewrite highlight_issues_no_match.
  - destruct (original_content result) as [[|c s]|]; reflexivity.
  - apply Forall_forall. intros issue Hin.
    apply highlight_issue_no_match, Hno, Hin.
Qed.

Lemma overlay_without_match_witness :
  original_content_html (renderCleanupResults result_without_match) =
  pre_document_text (lit "x &lt; y").
Proof.
  apply (overlay_without_match result_without_match).
  intros issue [<-|[<-|[]]].
  - right. exists (lit "a<b"). split; [reflexivity|].
    intros k Hk. do 6 (destruct k as [|k]; [reflexivity|]).
    simpl in Hk. lia.
  - left. reflexivity.
Defined.

(** ** Promotion of plain text, continued *)

(** X6: promotion is applied once: what [convertTextToHtml] returns goes
    through it unchanged. *)
Theorem convertTextToHtml_idempotent (text : option jsstring) :
  convertTextToHtml (Some (convertTextToHtml text)) = convertTextToHtml text.
Proof. apply convertTextToHtml_markup, convertTextToHtml_is_markup. Qed.

(** X7: a block made from a chunk of plain text is an [h2] or a [p]
    element around an escaped body: no [<] and no [>] of the chunk gets
    into the markup. *)
Theorem paragraph_block_escaped (para : jsstring) :
  exists tag body,
    (tag = lit "h2" \/ tag = lit "p") /\
    paragraph_block para =
      lit "<" ++ tag ++ lit ">" ++ body ++ lit "</" ++ tag ++ lit ">" ++ [nl] /\
    ~ In 60%N body /\ ~ In 62%N body.
Proof.
  unfold paragraph_block.
  destruct (all_caps_line para || chapter_marker para).
  - exists (lit "h2"), (escapeHtml (Some para)).
    split; [left; reflexivity|]. split; [reflexivity|apply escapeHtml_no_angle].
  - destruct (numbered_paragraph para).
    + exists (lit "p"), (escapeHtml (Some para)).
      split; [right; reflexivity|]. split; [reflexivity|apply escapeHtml_no_angle].
    + exists (lit "p"),
        (escapeHtml (Some (replace_all_char nl (lit "<br>") para))).
      split; [right; reflexivity|]. split; [reflexivity|apply escapeHtml_no_angle].
Qed.

(** X8: in an ordinary paragraph (no heading, not numbered) a line feed is
    replaced by [<br>] before the escaping, so it reaches the editor as the
    text [&lt;br&gt;]. *)
Theorem paragraph_line_feed_escaped (before after : jsstring) :
  all_caps_line (before ++ nl :: after)
    || chapter_marker (before ++ nl :: after) = false ->
  numbered_paragraph (before ++ nl :: after) = false ->
  paragraph_block (before ++ nl :: after) =
    lit "<p>"
      ++ escapeHtml (Some (replace_all_char nl (lit "<br>") before))
      ++ lit "&lt;br&gt;"
      ++ escapeHtml (Some (replace_all_char nl (lit "<br>") after))
      ++ lit "</p>" ++ [nl].
Proof.
  intros Hhead Hnum. unfold paragraph_block. rewrite Hhead, Hnum.
  rewrite !escapeHtml_flat_map.
  change (before ++ nl :: after) with (before ++ [nl] ++ after).
  rewrite !replace_all_char_app, !flat_map_app, <- !app_assoc.
  reflexivity.
Qed.

Lemma paragraph_line_feed_escaped_witness :
  convertTextToHtml (Some (lit "satu" ++ nl :: lit "dua")) =
  lit "<p>satu&lt;br&gt;dua</p>" ++ [nl].
Proof.
  change (convertTextToHtml (Some (lit "satu" ++ nl :: lit "dua")))
    with (paragraph_block (lit "satu" ++ nl :: lit "dua")).
  rewrite (paragraph_line_feed_escaped (lit "satu") (lit "dua") eq_refl eq_refl).
  reflexivity.
Defined.

Lemma split_blank_lines_single (n : nat) :
  forall s acc : jsstring, length s <= n -> no_blank_line s = true ->
  split_blank_lines s acc false = [rev acc ++ s].
Proof.
  induction n as [|n IH]; intros s acc Hlen Hs.
  - destruct s; [|simpl in Hlen; lia]. cbn. now rewrite app_nil_r.
  - destruct s as [|c r]; [cbn; now rewrite app_nil_r|].
    rewrite split_blank_lines_step. cbn [andb].
    destruct r as [|d r']; [reflexivity|].
    cbn [no_blank_line] in Hs. apply andb_true_iff in Hs.
    destruct Hs as [Hcd Hr]. apply negb_true_iff in Hcd. rewrite Hcd.
    rewrite IH; [|simpl in *; lia|exact Hr].
    cbn [rev]. now rewrite <- app_assoc.
Qed.

(** X9: a text with no blank line in it that is neither blank nor markup
    becomes one block, made from its trimmed value. *)
Theorem convertTextToHtml_one_block (s : jsstring) :
  no_blank_line s = true ->
  is_markup s = false ->
  forallb is_space s = false ->
  convertTextToHtml (Some s) = paragraph_block (trim s).
Proof.
  intros Hone Hplain Hs.
  destruct (convertTextToHtml_blocks s Hplain Hs) as [Hne ->].
  unfold chunks, split_paragraphs in *.
  rewrite (split_blank_lines_single (length s) s [] (le_n _) Hone) in *.
  cbn [rev app map filter] in *.
  destruct (trim s) as [|c t]; [contradiction|].
  cbn [is_empty negb map concat]. now rewrite app_nil_r.
Qed.

Lemma convertTextToHtml_one_block_witness :
  convertTextToHtml (Some (lit "  BAB 2 " ++ [nl])) = lit "<h2>BAB 2</h2>" ++ [nl].
Proof.
  exact (eq_trans
           (convertTextToHtml_one_block (lit "  BAB 2 " ++ [nl])
              eq_refl eq_refl eq_refl)
           eq_refl).
Defined.

(** ** The editor, continued *)

(** X10: switching to the language that is already shown is a refresh:
    when the surface holds markup that it serialises unchanged, the switch
    stores that content in the buffer of the language and shows it again. *)
Theorem switchEditorLanguage_same_language
  (quill_paste : jsstring -> jsstring) (lang : jsstring)
  (w : World) (editor : Quill) (r : CleanupResult) :
  editorInstance w = Some editor ->
  cleanupResult w = Some r ->
  is_indonesian lang = is_indonesian (currentEditorLanguage w) ->
  is_markup (root_innerHTML editor) = true ->
  quill_paste (root_innerHTML editor) = root_innerHTML editor ->
  exists w',
    switchEditorLanguage quill_paste lang w = Normal w' /\
    surface w' = Some (root_innerHTML editor) /\
    cleanupResult w' =
      Some (store_edited (currentEditorLanguage w) (root_innerHTML editor) r) /\
    currentEditorLanguage w' = lang.
Proof.
  intros He Hr Hlang Hm Hfix.
  destruct (switchEditorLanguage_normal quill_paste lang w r Hr)
    as [w' [E [C [L S]]]].
  exists w'. split; [exact E|].
  rewrite (captured_live w r editor He) in *.
  split; [|split; [exact C|exact L]].
  unfold surface. rewrite S. cbn [option_map root_innerHTML]. f_equal.
  unfold loaded.
  rewrite editor_content_same;
    [|exact Hlang|apply is_markup_truthy; exact Hm].
  rewrite convertTextToHtml_markup by exact Hm. exact Hfix.
Qed.

Lemma switchEditorLanguage_same_language_witness :
  exists w',
    switchEditorLanguage plain_surface (lit "indonesian") world_editing
      = Normal w' /\
    surface w' = Some (lit "<p>teks baru</p>") /\
    option_map edited_indonesian (cleanupResult w')
      = Some (Some (lit "<p>teks baru</p>")).
Proof.
  destruct (switchEditorLanguage_same_language plain_surface
              (lit "indonesian") world_editing
              {| root_innerHTML := lit "<p>teks baru</p>" |}
              result_with_empty_edit eq_refl eq_refl eq_refl eq_refl eq_refl)
    as [w' [E [S [C _]]]].
  exists w'. split; [exact E|]. split; [exact S|].
  rewrite C. reflexivity.
Defined.

(** X11: the back button closes the editor without reading the surface:
    what was typed since the last switch or save is not kept, and the
    editor opened again shows what it would have shown without the typing.
    Closing twice is closing once. *)
Theorem back_discards_unsaved_edit
  (quill_paste : jsstring -> jsstring) (html : jsstring)
  (w : World) (r : CleanupResult) :
  cleanupResult w = Some r ->
  cleanupResult (back_to_cleanup_click (user_edit html w)) = Some r /\
  editorInstance (back_to_cleanup_click (user_edit html w)) = None /\
  edit_document_click quill_paste (back_to_cleanup_click (user_edit html w)) =
  edit_document_click quill_paste (back_to_cleanup_click w) /\
  destroyEditor (destroyEditor w) = destroyEditor w.
Proof.
  intros Hr.
  destruct w as [d tm rp cr [editor|] cur sec pt ps pr es al sv cv mv];
    cbn in Hr; subst cr; repeat split.
Qed.

Lemma back_discards_unsaved_edit_witness :
  surface (user_edit (lit "<p>ketikan</p>") world_editing)
    = Some (lit "<p>ketikan</p>") /\
  surface (world_of (edit_document_click plain_surface
             (back_to_cleanup_click
                (user_edit (lit "<p>ketikan</p>") world_editing))))
    = Some (lit "<p>teks</p>" ++ [nl]).
Proof.
  split; [reflexivity|].
  rewrite (proj1 (proj2 (proj2
             (back_discards_unsaved_edit plain_surface (lit "<p>ketikan</p>")
                world_editing result_with_empty_edit eq_refl)))).
  reflexivity.
Defined.

Lemma initQuillEditor_surface
  (quill_paste : jsstring -> jsstring) (w : World) (r : CleanupResult) :
  cleanupResult w = Some r ->
  surface (world_of (initQuillEditor quill_paste w)) =
  Some (loaded quill_paste (currentEditorLanguage w) r).
Proof.
  intros Hr.
  destruct w as [d tm rp cr [editor|] cur sec pt ps pr es al sv cv mv];
    cbn in Hr; subst cr; reflexivity.
Qed.

Lemma reopened_surface
  (quill_paste : jsstring -> jsstring) (w : World) (r : CleanupResult) :
  cleanupResult w = Some r ->
  surface (world_of (edit_document_click quill_paste (back_to_cleanup_click w))) =
  Some (loaded quill_paste (lit "indonesian") r).
Proof.
  intros Hr.
  destruct w as [d tm rp cr [editor|] cur sec pt ps pr es al sv cv mv];
    cbn in Hr; subst cr; reflexivity.
Qed.

(** X12: after a successful save the content that was sent is the edited
    value of the current language, the other language is untouched, the
    status is the saved one until the timer puts [Ready] back, and an
    editor initialised from this state, or opened again after the back
    button when the language is Indonesian, shows the saved content. *)
Theorem saved_content_is_loaded
  (quill_paste : jsstring -> jsstring) (content : jsstring)
  (w : World) (r : CleanupResult) :
  cleanupResult w = Some r ->
  content <> [] ->
  cleanupResult (fst (after_save content (Ok tt) w)) =
    Some (store_edited (currentEditorLanguage w) content r) /\
  (forall lang,
     is_indonesian lang <> is_indonesian (currentEditorLanguage w) ->
     editor_content lang (store_edited (currentEditorLanguage w) content r) =
     editor_content lang r) /\
  editor_status (fst (after_save content (Ok tt) w)) =
    (lit "Saved successfully", lit "editor-status saved") /\
  (exists callback,
     snd (after_save content (Ok tt) w) = SetTimeout 3000 callback /\
     editor_status (callback (fst (after_save content (Ok tt) w))) =
       (lit "Ready", lit "editor-status ")) /\
  surface (world_of (initQuillEditor quill_paste
                       (fst (after_save content (Ok tt) w)))) =
    Some (quill_paste (convertTextToHtml (Some content))) /\
  (is_indonesian (currentEditorLanguage w) = true ->
   surface (world_of (edit_document_click quill_paste
                        (back_to_cleanup_click
                           (fst (after_save content (Ok tt) w))))) =
     Some (quill_paste (convertTextToHtml (Some content)))).
Proof.
  intros Hr Hne.
  assert (Hc : truthy (Some content) = true)
    by (destruct content; [contradiction|reflexivity]).
  assert (E : after_save content (Ok tt) w =
    (updateEditorStatus (lit "Saved successfully") (lit "saved")
       (set_cleanupResult
          (Some (store_edited (currentEditorLanguage w) content r)) w),
     SetTimeout 3000 (updateEditorStatus (lit "Ready") [])))
    by (unfold after_save; rewrite Hr; reflexivity).
  rewrite E. cbn [fst snd].
  split; [reflexivity|]. split.
  { intros lang Hlang. apply editor_content_other. exact Hlang. }
  split; [reflexivity|]. split.
  { eexists. split; reflexivity. }
  split.
  - match goal with
    | |- surface (world_of (initQuillEditor _ ?w2)) = _ =>
        rewrite (initQuillEditor_surface quill_paste w2
                   (store_edited (currentEditorLanguage w) content r) eq_refl)
    end.
    unfold loaded.
    change (currentEditorLanguage (updateEditorStatus _ _ _))
      with (currentEditorLanguage w).
    rewrite editor_content_same; auto.
  - intros Hind.
    match goal with
    | |- surface (world_of (edit_document_click _
                              (back_to_cleanup_click ?w2))) = _ =>
        rewrite (reopened_surface quill_paste w2
                   (store_edited (currentEditorLanguage w) content r) eq_refl)
    end.
    unfold loaded. rewrite editor_content_same; auto.
Qed.

Lemma saved_content_is_loaded_witness :
  surface (world_of (edit_document_click plain_surface
             (back_to_cleanup_click
                (fst (after_save (lit "<p>teks baru</p>") (Ok tt)
                        world_editing)))))
  = Some (lit "<p>teks baru</p>").
Proof.
  exact (proj2 (proj2 (proj2 (proj2 (proj2
           (saved_content_is_loaded plain_surface (lit "<p>teks baru</p>")
              world_editing result_with_empty_edit eq_refl
              ltac:(discriminate))))))
           eq_refl).
Defined.

(** ** Counting words *)

Lemma nonempty_counts (c : code_unit) (acc : jsstring) :
  (0 <? length (rev (c :: acc))) = true.
Proof. cbn [rev]. rewrite length_app. apply Nat.ltb_lt. simpl. lia. Qed.

Lemma split_spaces_count (s : jsstring) :
  (forall b, length (filter (fun w => 0 <? length w) (split_spaces s [] b))
             = word_starts true s) /\
  (forall c acc,
     length (filter (fun w => 0 <? length w) (split_spaces s (c :: acc) false))
     = S (word_starts false s)).
Proof.
  induction s as [|x r [IH1 IH2]].
  - split; [reflexivity|].
    intros c acc. cbn [split_spaces filter]. rewrite nonempty_counts. reflexivity.
  - split.
    + intros b. cbn [split_spaces word_starts]. destruct (is_space x).
      * destruct b; [apply IH1|]. cbn [rev filter Nat.ltb length Nat.leb].
        apply IH1.
      * apply IH2.
    + intros c acc. cbn [split_spaces word_starts]. destruct (is_space x).
      * cbn [filter]. rewrite nonempty_counts. cbn [length]. now rewrite IH1.
      * apply IH2.
Qed.

Lemma word_starts_blank (b : bool) (sp : jsstring) :
  forallb is_space sp = true -> word_starts b sp = 0.
Proof.
  revert b. induction sp as [|c sp IH]; intros b H; [reflexivity|].
  cbn [forallb] in H. apply andb_true_iff in H. destruct H as [Hc Hs].
  cbn [word_starts]. rewrite Hc. apply IH, Hs.
Qed.

Lemma word_starts_trailing (b : bool) (s sp : jsstring) :
  forallb is_space sp = true -> word_starts b (s ++ sp) = word_starts b s.
Proof.
  intros Hsp. revert b. induction s as [|c s IH]; intros b.
  - cbn [app word_starts]. apply word_starts_blank, Hsp.
  - cbn [app word_starts]. destruct (is_space c); now rewrite IH.
Qed.

Lemma word_starts_trimStart (s : jsstring) :
  word_starts true (trimStart s) = word_starts true s.
Proof.
  unfold trimStart. induction s as [|c s IH]; [reflexivity|].
  cbn [dropWhile word_starts]. destruct (is_space c) eqn:Hc; [exact IH|].
  cbn [word_starts]. now rewrite Hc.
Qed.

Lemma dropWhile_dropped (f : code_unit -> bool) (l : jsstring) :
  exists pre, forallb f pre = true /\ l = pre ++ dropWhile f l.
Proof.
  induction l as [|c l [pre [Hpre Hl]]].
  - exists []. split; reflexivity.
  - cbn [dropWhile]. destruct (f c) eqn:Hc.
    + exists (c :: pre). split; [cbn; now rewrite Hc|].
      cbn [app]. now rewrite <- Hl.
    + exists []. split; reflexivity.
Qed.

Lemma trimEnd_dropped (s : jsstring) :
  exists sp, forallb is_space sp = true /\ s = trimEnd s ++ sp.
Proof.
  unfold trimEnd. destruct (dropWhile_dropped is_space (rev s)) as [pre [Hpre Hs]].
  exists (rev pre). split.
  - apply forallb_forall. intros x Hx. apply in_rev in Hx.
    exact (proj1 (forallb_forall _ _) Hpre x Hx).
  - rewrite <- rev_app_distr, <- Hs. symmetry. apply rev_involutive.
Qed.

(** X13: the word count of the editor is the number of words of the text:
    the places where a character that is not white space stands first or
    follows white space.  A blank text has no word. *)
Theorem word_count_counts_words (content : jsstring) :
  word_count content = word_starts true content /\
  (forallb is_space content = true -> word_count content = 0).
Proof.
  assert (Hcount : word_count content = word_starts true content).
  { unfold word_count. rewrite (proj1 (split_spaces_count (trim content)) false).
    unfold trim.
    destruct (trimEnd_dropped (trimStart content)) as [sp [Hsp Hs]].
    rewrite <- (word_starts_trailing true (trimEnd (trimStart content)) sp Hsp).
    rewrite <- Hs. apply word_starts_trimStart. }
  split; [exact Hcount|].
  intros Hblank. rewrite Hcount. apply word_starts_blank, Hblank.
Qed.

Lemma word_count_counts_words_witness :
  word_count (lit "  Pihak  Pertama" ++ [nl; tab] ++ lit "setuju ") = 3 /\
  word_count (lit "  " ++ [nl]) = 0.
Proof.
  split.
  - rewrite (proj1 (word_count_counts_words _)). reflexivity.
  - exact (proj2 (word_count_counts_words (lit "  " ++ [nl])) eq_refl).
Defined.

(** ** Theme *)

(** X14: [toggleTheme] always leaves one of the two themes, stores it, and
    labels it; toggling twice from a dark or light page gives the same
    theme back; and the next page load restores the theme that was
    toggled to. *)
Theorem toggleTheme_persists (st : ThemeState) (markup_class : jsstring) :
  (body_className (toggleTheme st) = lit "dark-theme" \/
   body_className (toggleTheme st) = lit "light-theme") /\
  stored_theme (toggleTheme st) = Some (body_className (toggleTheme st)) /\
  (theme_text (toggleTheme st) = lit "Dark Mode" <->
   body_className (toggleTheme st) = lit "dark-theme") /\
  (body_className st = lit "dark-theme" \/ body_className st = lit "light-theme" ->
   body_className (toggleTheme (toggleTheme st)) = body_className st) /\
  body_className (page_load markup_class (stored_theme (toggleTheme st))) =
    body_className (toggleTheme st) /\
  body_className (page_load markup_class None) = lit "dark-theme".
Proof.
  unfold toggleTheme, page_load, initTheme, updateThemeUI.
  destruct (eqb_str (body_className st) (lit "dark-theme")) eqn:Hd.
  - apply eqb_str_true in Hd. cbn.
    split; [right; reflexivity|]. split; [reflexivity|].
    split; [split; intros H; discriminate H|].
    split; [intros _; symmetry; exact Hd|]. split; reflexivity.
  - cbn.
    split; [left; reflexivity|]. split; [reflexivity|].
    split; [split; intros _; reflexivity|].
    split; [|split; reflexivity].
    intros [H|H]; [rewrite H, eqb_str_refl in Hd; discriminate Hd|].
    symmetry. exact H.
Qed.

Lemma toggleTheme_persists_witness :
  body_className
    (toggleTheme (toggleTheme (page_load (lit "dark-theme") (Some (lit "light-theme")))))
  = lit "light-theme".
Proof.
  exact (proj1 (proj2 (proj2 (proj2
           (toggleTheme_persists
              (page_load (lit "dark-theme") (Some (lit "light-theme")))
              []))))
           (or_intror eq_refl)).
Defined.

(** ** Clauses *)

(** X15: the excerpt of a clause is its first 150 code units followed by
    the ellipsis, which is there also when nothing was cut; at most two of
    its laws are shown, the first ones. *)
Theorem clause_rendering_bounds (clause : Clause) :
  length (clause_excerpt clause) = Nat.min 150 (length (clause_text clause)) + 3 /\
  (length (clause_text clause) <= 150 ->
   clause_excerpt clause = clause_text clause ++ lit "...") /\
  length (clause_law_badges clause) <= 2 /\
  (forall laws, relevant_laws clause = Some laws ->
     length (clause_law_badges clause) = Nat.min 2 (length laws) /\
     clause_law_badges clause = map law_badge (firstn 2 laws)).
Proof.
  unfold clause_excerpt, clause_law_badges.
  split; [rewrite length_app, length_firstn; reflexivity|].
  split; [intros Hle; now rewrite firstn_all2|].
  split.
  - destruct (relevant_laws clause) as [laws|]; [|simpl; lia].
    rewrite length_map, length_firstn. lia.
  - intros laws ->. rewrite length_map, length_firstn. split; reflexivity.
Qed.

Lemma clause_rendering_bounds_witness :
  clause_excerpt sample_clause = lit "Para pihak wajib menjaga kerahasiaan...." /\
  length (clause_law_badges sample_clause) = 2.
Proof.
  split.
  - exact (proj1 (proj2 (clause_rendering_bounds sample_clause))
             ltac:(vm_compute; lia)).
  - exact (proj1 (proj2 (proj2 (proj2 (clause_rendering_bounds sample_clause)))
                    _ eq_refl)).
Defined.

(** ** Failed stages *)

Ltac surfaced_failure :=
  unfold failure_surfaced; cbn;
  first
    [ left; split; [reflexivity|]; split; [eexists; reflexivity|];
      split; [reflexivity|]; first [left; reflexivity | right; cbn; tauto]
    | right; split; [reflexivity|]; split; [reflexivity|];
      split; [reflexivity|]; eexists; reflexivity ].

Ltac surfaced_resume next :=
  cbn [surfaces_failures]; split;
  [ intros o w Ho; destruct o; try discriminate Ho; surfaced_failure
  | intros o w; destruct o; try exact I; next ].

Lemma surfaced_module_create (back : jsstring) (d : option jsstring) :
  In back resting_sections ->
  surfaces_failures (Await (POST_modules_create d) (after_module_create back)).
Proof.
  intros Hback. cbn [surfaces_failures]. split.
  - intros o w Ho. unfold failure_surfaced.
    destruct o; try discriminate Ho; cbn;
      (left; split; [reflexivity|]; split; [eexists; reflexivity|];
       split; [reflexivity|]; right; exact Hback).
  - intros o w. destruct o; exact I.
Qed.

Lemma upload_is_resting : In (lit "upload") resting_sections.
Proof. left. reflexivity. Qed.

Lemma cleanup_is_resting : In (lit "cleanup") resting_sections.
Proof. right. left. reflexivity. Qed.

Lemma surfaced_cleanup_fetch (d : option jsstring) :
  surfaces_failures (Await (GET_cleanup d) after_cleanup_fetch).
Proof.
  surfaced_resume ltac:(apply surfaced_module_create, upload_is_resting).
Qed.

Lemma surfaced_upload (file : jsstring) :
  surfaces_failures (Await (POST_documents_upload file) after_upload).
Proof. surfaced_resume ltac:(apply surfaced_cleanup_fetch). Qed.

Lemma surfaced_cleanup_rerun (d : option jsstring) :
  surfaces_failures (Await (POST_cleanup_rerun d) after_cleanup_rerun).
Proof. surfaced_resume idtac. Qed.

Lemma surfaced_report_fetch (d : option jsstring) :
  surfaces_failures (Await (GET_review_report d) after_report_fetch).
Proof. surfaced_resume idtac. Qed.

Lemma surfaced_module_fetch (d : option jsstring) :
  surfaces_failures (Await (GET_modules d) after_module_fetch).
Proof. surfaced_resume idtac. Qed.

Lemma surfaced_cleanup_view_fetch (d : option jsstring) :
  surfaces_failures (Await (GET_cleanup d) after_cleanup_view_fetch).
Proof. surfaced_resume idtac. Qed.

Lemma surfaced_review (d focus : option jsstring) :
  surfaces_failures (Await (POST_review d focus) after_review).
Proof. surfaced_resume idtac. Qed.

Lemma surfaced_save (d : option jsstring) (content lang : jsstring) :
  surfaces_failures (Await (PUT_cleanup_save d content lang) (after_save content)).
Proof.
  surfaced_resume idtac.
  cbn [after_save]. destruct (cleanupResult w); exact I.
Qed.

Lemma surfaced_handler (a : UserAction) (w : World) :
  surfaces_failures (snd (handler a w)).
Proof.
  destruct a as [[file|]| | |docId|docId|docId|focus|]; cbn [handler].
  - apply surfaced_upload.
  - exact I.
  - unfold skip_to_module_click.
    destruct (negb (truthy (documentId w))); [exact I|].
    apply surfaced_module_create, cleanup_is_resting.
  - unfold rerun_cleanup_click.
    destruct (negb (truthy (documentId w))); [exact I|].
    apply surfaced_cleanup_rerun.
  - apply surfaced_report_fetch.
  - apply surfaced_module_fetch.
  - apply surfaced_cleanup_view_fetch.
  - unfold startReviewBtn_click.
    destruct (negb (truthy (documentId w))); [exact I|].
    apply surfaced_review.
  - unfold saveEditedDocument. destruct (editorInstance w); [|exact I].
    destruct (negb (truthy (documentId w))); [exact I|].
    apply surfaced_save.
Qed.

(** An invariant of the pending tasks that holds for what every handler
    leaves and for what every resumption leaves is kept by every turn. *)
Lemma reachable_pending (P : Task -> Prop) :
  (forall a w, P (snd (handler a w))) ->
  (forall A (request : Request A) resume,
     P (Await request resume) -> forall o w, P (snd (resume o w))) ->
  forall s, reachable s -> Forall P (pending s).
Proof.
  intros Hhandler Hresume s Hs.
  induction Hs as [|s s' Hs IH Hturn]; [constructor|].
  destruct Hturn as [a s|A request resume o w before after
                    |ms callback w before after]; cbn [pending] in *.
  - apply Forall_app. split; [exact IH|].
    constructor; [apply Hhandler|constructor].
  - apply Forall_app in IH. destruct IH as [Hb Ha].
    inversion Ha as [|t l Ht Hl]; subst.
    apply Forall_app. split; [exact Hb|].
    apply Forall_app. split; [exact Hl|].
    constructor; [|constructor]. exact (Hresume _ _ _ Ht o w).
  - apply Forall_app in IH. destruct IH as [Hb Ha].
    inversion Ha as [|t l Ht Hl]; subst.
    apply Forall_app. split; assumption.
Qed.

(** X16: in every reachable state, when the response to a pending request
    is a failure the handler either ends with exactly one alert, the four
    session variables untouched and the page on the section it was on or on
    one of upload, cleanup, module, history, documents; or, for the cleanup
    fetch of the upload flow, raises no alert and sends the module-creation
    request. *)
Theorem failed_response_is_surfaced
  (s : System) (A : Type) (request : Request A)
  (resume : Outcome A -> World -> World * Task) (before after : list Task) :
  reachable s ->
  pending s = before ++ Await request resume :: after ->
  forall (o : Outcome A) (w : World),
    failed o = true -> failure_surfaced w (resume o w).
Proof.
  intros Hs Hp o w Ho.
  pose proof (reachable_pending surfaces_failures surfaced_handler
                (fun A request resume H o w => proj2 H o w) s Hs) as Hall.
  rewrite Hp in Hall. apply Forall_app in Hall. destruct Hall as [_ Hall].
  inversion Hall as [|t l Ht Hl]; subst.
  exact (proj1 Ht o w Ho).
Qed.

Lemma failed_response_is_surfaced_witness :
  failure_surfaced (world two_reports_requested)
    (after_report_fetch NotOk (world two_reports_requested)) /\
  alerts (fst (after_report_fetch NotOk (world two_reports_requested)))
    = [lit "Report not found"] /\
  section (fst (after_report_fetch NotOk (world two_reports_requested)))
    = lit "history".
Proof.
  split; [|split; reflexivity].
  exact (failed_response_is_surfaced two_reports_requested ComplianceReport
           (GET_review_report (Some (lit "doc-A"))) after_report_fetch
           []
           [Await (GET_review_report (Some (lit "doc-B"))) after_report_fetch]
           two_reports_requested_reachable eq_refl
           NotOk (world two_reports_requested) eq_refl).
Defined.

(** ** Handlers that need a document *)

(** X17: the handlers of the skip, rerun, review and save buttons do
    nothing at all while [documentId] is [null], [undefined] or empty: no
    request, no change on the page; and a request they send is sent for the
    current, non-empty [documentId]. *)
Theorem guarded_handlers_need_document (a : UserAction) (w : World) :
  match a with
  | ClickSkipToModule | ClickRerunCleanup | ClickStartReview _ | ClickSave => True
  | _ => False
  end ->
  (truthy (documentId w) = false -> handler a w = (w, Done)) /\
  (forall d, task_document (snd (handler a w)) = Some d ->
             d = documentId w /\ truthy d = true).
Proof.
  destruct w as [d0 tm rp cr ed cur sec pt ps pr es al sv cv mv].
  destruct a as [file| | |docId|docId|docId|focus|]; try contradiction;
    intros _; cbn [handler];
    try (destruct ed as [editor|]);
    destruct d0 as [[|c d]|]; cbn;
    (split; [intros H; first [reflexivity | discriminate H]
            |intros d' H; first [discriminate H
                                | injection H as <-; split; reflexivity]]).
Qed.

Lemma guarded_handlers_need_document_witness :
  handler ClickRerunCleanup initial_world = (initial_world, Done) /\
  task_document (snd (handler ClickRerunCleanup world_with_empty_edit))
    = Some (Some (lit "doc-1")).
Proof.
  split.
  - exact (proj1 (guarded_handlers_need_document ClickRerunCleanup
                    initial_world I) eq_refl).
  - destruct (proj2 (guarded_handlers_need_document ClickRerunCleanup
                       world_with_empty_edit I)
                (documentId world_with_empty_edit) eq_refl) as [_ _].
    reflexivity.
Defined.

(** ** The progress bar *)

Lemma progress_module_create (p : nat) (back : jsstring) (d : option jsstring) :
  p <= 100 ->
  progress_rises p (Await (POST_modules_create d) (after_module_create back)).
Proof.
  intros Hp. cbn [progress_rises]. intros o w Hw.
  destruct o; cbn; try (split; [lia|exact I]).
  split; [exact Hp|]. intros w' Hw'.
  unfold module_timer. destruct (trainingModule w'); exact Hw'.
Qed.

Lemma progress_cleanup_fetch (p : nat) (d : option jsstring) :
  p <= 70 ->
  progress_rises p (Await (GET_cleanup d) after_cleanup_fetch).
Proof.
  intros Hp. cbn [progress_rises]. intros o w Hw.
  destruct o; cbn [after_cleanup_fetch fst snd];
    try (split; [exact Hp|apply progress_module_create; cbn; lia]).
  split; [exact Hp|]. cbn. intros w' Hw'.
  unfold cleanup_timer. destruct (cleanupResult w'); exact Hw'.
Qed.

Lemma progress_upload (p : nat) (file : jsstring) :
  p <= 40 ->
  progress_rises p (Await (POST_documents_upload file) after_upload).
Proof.
  intros Hp. cbn [progress_rises]. intros o w Hw.
  destruct o; cbn [after_upload stage_failed fst snd];
    try (split; [cbn; lia|exact I]).
  split; [exact Hp|]. apply progress_cleanup_fetch. cbn. lia.
Qed.

Lemma progress_earlier_upload (p : nat) (file : jsstring) :
  p <= 30 ->
  progress_rises p (Await (POST_documents_upload file) Earlier.after_upload).
Proof.
  intros Hp. cbn [progress_rises]. intros o w Hw.
  destruct o; cbn [Earlier.after_upload stage_failed fst snd];
    try (split; [cbn; lia|exact I]).
  split; [exact Hp|]. apply progress_module_create. cbn. lia.
Qed.

Lemma progress_cleanup_rerun (p : nat) (d : option jsstring) :
  p <= 100 ->
  progress_rises p (Await (POST_cleanup_rerun d) after_cleanup_rerun).
Proof.
  intros Hp. cbn [progress_rises]. intros o w Hw.
  destruct o; cbn; try (split; [lia|exact I]).
  split; [exact Hp|]. intros w' Hw'.
  unfold cleanup_timer. destruct (cleanupResult w'); exact Hw'.
Qed.

Lemma progress_review (p : nat) (d focus : option jsstring) :
  p <= 100 ->
  progress_rises p (Await (POST_review d focus) after_review).
Proof.
  intros Hp. cbn [progress_rises]. intros o w Hw.
  destruct o; cbn; try (split; [lia|exact I]).
  split; [exact Hp|]. intros w' Hw'.
  unfold report_timer. destruct (complianceReport w'); exact Hw'.
Qed.

Lemma progress_unchanged (a : UserAction) (w : World) :
  match a with
  | ClickViewReport _ | ClickAnalyzeAgain _ | ClickViewCleanup _ | ClickSave => True
  | _ => False
  end ->
  progress_rises (main_progress (fst (handler a w))) (snd (handler a w)).
Proof.
  destruct a; try contradiction; intros _; cbn [handler].
  - cbn. intros o w' Hw'. destruct o; cbn; (split; [lia|exact I]).
  - cbn. intros o w' Hw'. destruct o; cbn; (split; [lia|exact I]).
  - cbn. intros o w' Hw'. destruct o; cbn; (split; [lia|exact I]).
  - unfold saveEditedDocument. destruct (editorInstance w); [|exact I].
    destruct (negb (truthy (documentId w))); [exact I|].
    cbn. intros o w' Hw'. destruct o; cbn; try (split; [lia|exact I]).
    destruct (cleanupResult w'); cbn; (split; [lia|]); [|exact I].
    intros w'' Hw''. exact Hw''.
Qed.

(** X19: a handler never moves the progress bar back.  From the value the
    bar has when the handler reaches its first request, every resumption
    leaves it where it is or moves it up (upload: 0, 40, 70, 100; skip and
    rerun: 30, 100; review: 10, 100), and the timer callbacks do not touch
    it, as long as no other handler moved the bar in between.  The same
    holds for the upload handler of the earlier version (0, 30, 100). *)
Theorem progress_never_decreases (a : UserAction) (w : World) :
  progress_rises (main_progress (fst (handler a w))) (snd (handler a w)) /\
  forall file,
    progress_rises
      (main_progress (fst (Earlier.startProcessBtn_click file w)))
      (snd (Earlier.startProcessBtn_click file w)).
Proof.
  split.
  - destruct a as [[file|]| | |docId|docId|docId|focus|];
      try match goal with
          | |- context [handler ?a w] => exact (progress_unchanged a w I)
          end;
      cbn [handler].
    + apply progress_upload. cbn. lia.
    + exact I.
    + unfold skip_to_module_click.
      destruct (negb (truthy (documentId w))); [exact I|].
      apply progress_module_create. cbn. lia.
    + unfold rerun_cleanup_click.
      destruct (negb (truthy (documentId w))); [exact I|].
      apply progress_cleanup_rerun. cbn. lia.
    + unfold startReviewBtn_click.
      destruct (negb (truthy (documentId w))); [exact I|].
      apply progress_review. cbn. lia.
  - intros [file|]; [|exact I].
    apply progress_earlier_upload. cbn. lia.
Qed.

(** ** The earlier upload handler *)

(** X20: the upload handler of the earlier version goes from the upload
    straight to the creation of the module for the uploaded document and
    never writes [cleanupResult]; a failed upload or creation alerts the
    error and shows the upload section again. *)
Theorem earlier_upload_creates_module (file : jsstring) (w0 : World) :
  snd (Earlier.startProcessBtn_click (Some file) w0) =
    Await (POST_documents_upload file) Earlier.after_upload /\
  (forall (uploadData : UploadData) (w : World),
     snd (Earlier.after_upload (Ok uploadData) w) =
       Await (POST_modules_create (Some (id uploadData)))
             (after_module_create (lit "upload")) /\
     documentId (fst (Earlier.after_upload (Ok uploadData) w))
       = Some (id uploadData)) /\
  (forall o w, cleanupResult (fst (Earlier.after_upload o w)) = cleanupResult w) /\
  (forall o w,
     cleanupResult (fst (after_module_create (lit "upload") o w))
       = cleanupResult w) /\
  (forall (o : Outcome UploadData) w, failed o = true ->
     failure_surfaced w (Earlier.after_upload o w) /\
     section (fst (Earlier.after_upload o w)) = lit "upload") /\
  (forall (o : Outcome TrainingModule) w, failed o = true ->
     failure_surfaced w (after_module_create (lit "upload") o w) /\
     section (fst (after_module_create (lit "upload") o w)) = lit "upload").
Proof.
  split; [reflexivity|]. split; [intros uploadData w; split; reflexivity|].
  split; [intros o w; destruct o; reflexivity|].
  split; [intros o w; destruct o; reflexivity|].
  split; intros o w Ho; destruct o; try discriminate Ho;
    (split; [surfaced_failure|reflexivity]).
Qed.

Lemma earlier_upload_creates_module_witness :
  failure_surfaced initial_world (Earlier.after_upload NotOk initial_world) /\
  alerts (fst (Earlier.after_upload NotOk initial_world))
    = [lit "Error: Upload failed"].
Proof.
  split; [|reflexivity].
  exact (proj1 (proj1 (proj2 (proj2 (proj2 (proj2
           (earlier_upload_creates_module (lit "nda.pdf") initial_world)))))
           NotOk initial_world eq_refl)).
Defined.
